(** * Funds back end: the balance / ledger / subscription workflows

    A shallow embedding of [funds/models.py], [funds/services.py],
    [funds/serializers.py] and of the two mutating views of
    [funds/views.py] (subscribe and cancel), followed by the properties
    the specification states about them.

    Conventions of the embedding.

    - Amounts.  The code computes on [Decimal(str(x))] for every stored
      number [x] and writes results back with [float(d)].  A decimal is
      counted in hundredths of a peso (so [Decimal('500000.00')] is
      [50000000]).  A stored number is a binary64 number; it is
      represented by the decimal [Decimal(str(x))] it is read as, which
      determines it, so that reading is the identity and writing is
      [float]: rounding to the nearest binary64 number, ties to even,
      followed by the shortest decimal that is read back as that number.
      The amounts of the program have at most two decimals, and so has
      what [float] gives for them; decimals with more places, the
      exponent range of binary64 and the 28 digits of the decimal
      context are not represented.
    - Storage.  The four tables the workflows touch are fields of
      [store].  A pynamodb [save()] either replaces the stored item or
      raises; which of the two happens is decided by the environment
      [env], one flag per call site.  Reads by primary key succeed or
      raise [DoesNotExist]; the index query may raise as well.  The
      [journal] of a [world] records the tables before each successful
      write; no code reads it.
    - Objects.  A model instance is a record value; a method that
      assigns to [self] returns the updated instance, which is distinct
      from what the table holds until it is saved.
    - Time and identifiers.  [datetime.utcnow()] reads a clock that
      advances at every reading; [uuid.uuid4()] draws the next unused
      identifier.  Only the timestamps that the code reads back
      ([created_at] of a transaction) or clears ([cancelled_at]) are
      kept; [updated_at] and the creation stamps of the other records
      are not represented. *)

From Stdlib Require Import ZArith Lia.
From stdpp Require Import base decidable option list gmap strings sorting pretty.

Local Open Scope Z_scope.

(** ** Data model ([funds/models.py]) *)

Abbreviation Decimal := Z.

(** *** Stored numbers

    A [NumberAttribute] holds a binary64 number.  The code writes one
    with [float(d)] and reads it with [Decimal(str(x))]; [str] gives the
    shortest decimal that is read back as [x], the nearest to [x] if
    there are several. *)

Module binary64.

(** The integer nearest to p / q, ties to the even one (0 <= p, 0 < q). *)
Definition round_half_even (p q : Z) : Z :=
  let n := p / q in
  let r := p mod q in
  if 2 * r <? q then n
  else if q <? 2 * r then n + 1
  else if Z.even n then n else n + 1.

(** p / (q * 2^e) as a fraction of integers. *)
Definition scaled (p q e : Z) : Z * Z :=
  if e <? 0 then (p * 2 ^ (- e), q) else (p, q * 2 ^ e).

(** The binary64 number nearest to p / q (0 < p, 0 < q), ties to even:
    its 53-bit significand m, 2^52 <= m < 2^53, and its exponent e; the
    number is m * 2^e. *)
Definition nearest (p q : Z) : Z * Z :=
  let g := Z.log2 p - Z.log2 q - 52 in
  let e := if fst (scaled p q g) <? 2 ^ 52 * snd (scaled p q g)
           then g - 1 else g in
  let m := round_half_even (fst (scaled p q e)) (snd (scaled p q e)) in
  if m =? 2 ^ 53 then (2 ^ 52, e + 1) else (m, e).

(** The multiples of 10^j hundredths next to m * 2^e: the one below (or
    equal) and whether the number is nearer to it, to the one above, or
    half way. *)
Definition below (m e : Z) (j : nat) : Z * comparison :=
  let n := fst (scaled (100 * m) (10 ^ Z.of_nat j) (- e)) in
  let d := snd (scaled (100 * m) (10 ^ Z.of_nat j) (- e)) in
  ((n / d) * 10 ^ Z.of_nat j, (2 * (n mod d) ?= d)).

(** [c] hundredths is read as the number m * 2^e. *)
Definition reads_as (m e c : Z) : bool :=
  (0 <? c) && bool_decide (nearest c 100 = (m, e)).

(** The multiple of 10^j hundredths that is read as m * 2^e, the
    nearest one if there are two. *)
Definition candidate (m e : Z) (j : nat) : option Z :=
  let lo := fst (below m e j) in
  let hi := lo + 10 ^ Z.of_nat j in
  match reads_as m e lo, reads_as m e hi with
  | true, false => Some lo
  | false, true => Some hi
  | false, false => None
  | true, true =>
      match snd (below m e j) with
      | Lt => Some lo
      | Gt => Some hi
      | Eq => if Z.even (lo / 10 ^ Z.of_nat j) then Some lo else Some hi
      end
  end.

(** The shortest decimal that is read as m * 2^e, among those with at
    most two decimals: the first multiple of 10^j found, from [j] down
    to 0. *)
Fixpoint shortest (m e : Z) (j : nat) : option Z :=
  match candidate m e j with
  | Some c => Some c
  | None =>
      match j with
      | O => None
      | S j' => shortest m e j'
      end
  end.

End binary64.

(** float(d) for an amount [d] in hundredths, as the decimal it is read
    back as: Decimal(str(float(d))). *)
Definition float (d : Decimal) : Decimal :=
  if d =? 0 then 0
  else
    let (m, e) := binary64.nearest (Z.abs d) 100 in
    match binary64.shortest m e (Z.to_nat (60 + e)) with
    | Some c => Z.sgn d * c
    | None => d
    end.


Arguments float : simpl never.

(** Below this amount (10^13 with two decimals, that is 15 significant
    digits) every amount is stored and read back as it is. *)
Definition float_limit : Decimal := 10 ^ 15.

(** [transaction_type] is one of the strings 'SUBSCRIPTION', 'CANCELLATION'. *)
Inductive TransactionType := SUBSCRIPTION | CANCELLATION.

(** [status] is one of the strings 'PENDING', 'COMPLETED', 'FAILED'. *)
Inductive Status := PENDING | COMPLETED | FAILED.

#[global] Instance TransactionType_eq_dec : EqDecision TransactionType.
Proof. solve_decision. Defined.

#[global] Instance Status_eq_dec : EqDecision Status.
Proof. solve_decision. Defined.

(** class Fund; the hash key [id] is the key of the table. *)
Record Fund := {
  name : string;
  minimum_amount : Decimal;
  category : string;
  is_active : bool }.

(** class UserBalance; the hash key [user_id] is the key of the table. *)
Record UserBalance := {
  available_balance : Decimal }.

(** class Transaction. *)
Record Transaction := {
  transaction_id : positive;
  user_id : string;
  fund_id : string;
  transaction_type : TransactionType;
  amount : Decimal;
  status : Status;
  notification_sent : bool;
  created_at : Z }.

(** class UserFund; hash key [user_id] and range key [fund_id] are the key
    of the table. *)
Record UserFund := {
  subscribed_at : Z;
  cancelled_at : option Z;
  active : bool;
  subscription_amount : Decimal;
  invested_amount : Decimal }.

Definition set_status (t : Transaction) (s : Status) : Transaction :=
  {| transaction_id := transaction_id t; user_id := user_id t;
     fund_id := fund_id t; transaction_type := transaction_type t;
     amount := amount t; status := s;
     notification_sent := notification_sent t; created_at := created_at t |}.

Definition set_notification_sent (t : Transaction) (b : bool) : Transaction :=
  {| transaction_id := transaction_id t; user_id := user_id t;
     fund_id := fund_id t; transaction_type := transaction_type t;
     amount := amount t; status := status t;
     notification_sent := b; created_at := created_at t |}.

(** ** Storage *)

Record store := {
  funds : gmap string Fund;
  user_balances : gmap string UserBalance;
  transactions : list Transaction;
  user_funds : gmap (string * string) UserFund }.

(** [journal] keeps every earlier content of the tables, most recent
    first: one entry per successful [save()]. *)
Record world := {
  db : store;
  clock : Z;
  next_uuid : positive;
  journal : list store }.

(** Outcome of the storage calls and of the notification service during
    one request: [true] when the call goes through. *)
Record env := {
  balance_create_ok : bool;   (* balance.save() in get_or_create_balance *)
  txn_create_ok : bool;       (* transaction.save() after create_transaction *)
  balance_save_ok : bool;     (* self.save() in update_balance *)
  status_save_ok : bool;      (* self.save() in update_status *)
  query_ok : bool;            (* user_index.query in get_user_transactions *)
  reactivate_save_ok : bool;  (* self.save() in reactivate_subscription *)
  user_fund_save_ok : bool;   (* user_fund.save() in FundSubscribeView.post *)
  cancel_save_ok : bool;      (* self.save() in cancel_subscription *)
  notification_ok : bool;     (* send_transaction_notification returns True *)
  notified_save_ok : bool }.  (* transaction.save() after notification_sent *)

(** Item replacement in the transactions table (the hash key is [id]). *)
Fixpoint put_transaction (t : Transaction) (l : list Transaction)
  : list Transaction :=
  match l with
  | [] => [t]
  | x :: l' =>
      if decide (transaction_id x = transaction_id t) then t :: l'
      else x :: put_transaction t l'
  end.

Definition store_put_balance (u : string) (b : UserBalance) (s : store)
  : store :=
  {| funds := funds s; user_balances := <[u := b]> (user_balances s);
     transactions := transactions s; user_funds := user_funds s |}.

Definition store_put_transaction (t : Transaction) (s : store) : store :=
  {| funds := funds s; user_balances := user_balances s;
     transactions := put_transaction t (transactions s);
     user_funds := user_funds s |}.

Definition store_put_user_fund (u f : string) (x : UserFund) (s : store)
  : store :=
  {| funds := funds s; user_balances := user_balances s;
     transactions := transactions s;
     user_funds := <[(u, f) := x]> (user_funds s) |}.

Definition store_put_fund (f : string) (x : Fund) (s : store) : store :=
  {| funds := <[f := x]> (funds s); user_balances := user_balances s;
     transactions := transactions s; user_funds := user_funds s |}.

(** ** Exceptions and the request monad *)

(** Second component of [can_user_subscribe]:
    - [no_note]: the empty string
    - [already_active]: "Ya tiene una suscripcion activa a este fondo"
    - [will_reactivate]: "Suscripcion anterior encontrada - se reactivara" *)
Inductive subscribe_note := no_note | already_active | will_reactivate.

(** The payload of a [serializers.ValidationError]: the key of the
    dictionary names the constructor.
    - [fund_id_required]: {"fund_id": "ID del fondo es requerido"}
    - [fund_does_not_exist]: {"fund": "El fondo especificado no existe"}
    - [fund_not_available]: {"fund": "El fondo no esta disponible"}
    - [subscription_refused]: {"subscription": error_message}
    - [insufficient_balance req av]: {"balance": "Saldo insuficiente. Se
      requieren $req pero solo tiene $av disponibles"}
    - [no_subscription]: {"subscription": "No tiene una suscripcion a
      este fondo"}
    - [subscription_cancelled]: {"subscription": "La suscripcion a este
      fondo ya esta cancelada"} *)
Inductive validation_detail :=
  | fund_id_required
  | fund_does_not_exist
  | fund_not_available
  | subscription_refused (error_message : subscribe_note)
  | insufficient_balance (required available : Decimal)
  | no_subscription
  | subscription_cancelled.

Inductive exn :=
  | DoesNotExist
  | StorageError
  | ValidationError (d : validation_detail).

Inductive result (A : Type) :=
  | Returned (a : A)
  | Raised (e : exn).
Arguments Returned {A} a.
Arguments Raised {A} e.

Definition M (A : Type) : Type := world -> result A * world.

Definition ret {A} (a : A) : M A := fun w => (Returned a, w).

Definition bind {A B} (m : M A) (k : A -> M B) : M B :=
  fun w => match m w with
           | (Returned a, w') => k a w'
           | (Raised e, w') => (Raised e, w')
           end.

Definition raise {A} (e : exn) : M A := fun w => (Raised e, w).

(** try: m  except Exception as e: h e *)
Definition try_except {A} (m : M A) (h : exn -> M A) : M A :=
  fun w => match m w with
           | (Returned a, w') => (Returned a, w')
           | (Raised e, w') => h e w'
           end.

Notation "x <- m ;; k" := (bind m (fun x => k))
  (at level 100, m at next level, right associativity).
Notation "m ;;; k" := (bind m (fun _ => k))
  (at level 100, right associativity).

(** datetime.utcnow() *)
Definition utcnow : M Z :=
  fun w => (Returned (clock w),
            {| db := db w; clock := clock w + 1;
               next_uuid := next_uuid w; journal := journal w |}).

(** uuid.uuid4() *)
Definition uuid4 : M positive :=
  fun w => (Returned (next_uuid w),
            {| db := db w; clock := clock w;
               next_uuid := Pos.succ (next_uuid w); journal := journal w |}).

(** str(u) for an identifier [u] drawn by [uuid4]: the text of the
    identifier; two identifiers have the same text only if they are the
    same. *)
Definition uuid_str (u : positive) : string := pretty (Npos u).

(** Model.save(): replaces the item, or raises and leaves the table as
    it was. *)
Definition save (ok : bool) (f : store -> store) : M unit :=
  fun w => if ok
           then (Returned tt,
                 {| db := f (db w); clock := clock w;
                    next_uuid := next_uuid w; journal := db w :: journal w |})
           else (Raised StorageError, w).

(** try: x = m  except cls.DoesNotExist: (the caller handles [None]);
    any other exception propagates. *)
Definition except_DoesNotExist {A} (m : M A) : M (option A) :=
  try_except (x <- m ;; ret (Some x))
    (fun ex => match ex with
               | DoesNotExist => ret None
               | _ => raise ex
               end).

(** ** Methods of the models *)

Module Fund.

(** Fund.get(fund_id) *)
Definition get (fid : string) : M Fund :=
  fun w => match funds (db w) !! fid with
           | Some fund => (Returned fund, w)
           | None => (Raised DoesNotExist, w)
           end.

(** Fund.create_fund(name, minimum_amount, category): the instance with
    its hash key. *)
Definition create_fund (nm : string) (minimum : Decimal) (cat : string)
  : M (string * Fund) :=
  u <- uuid4 ;;
  ret (uuid_str u,
       {| name := nm; minimum_amount := float minimum; category := cat;
          is_active := true |}).

(** cls.scan(limit=limit): the items of the table with their keys, in
    the order the table yields them, which the code does not choose;
    [ok] is whether the scan goes through. *)
Definition scan (ok : bool) (limit : option nat) : M (list (string * Fund)) :=
  fun w =>
    if ok
    then (Returned
            (let items := map_to_list (funds (db w)) in
             match limit with
             | Some n => take n items
             | None => items
             end),
          w)
    else (Raised StorageError, w).

Definition get_active_funds (ok : bool) : M (list (string * Fund)) :=
  all <- scan ok None ;;
  ret (filter (fun fund => is_active (snd fund) = true) all).

(** The list [default_funds] of [initialize_default_funds]: name,
    minimum_amount, category. *)
Definition default_funds : list (string * Decimal * string) :=
  [ ("FPV_EL CLIENTE_RECAUDADORA", 7500000, "FPV");
    ("FPV_EL CLIENTE_ECOPETROL", 12500000, "FPV");
    ("DEUDAPRIVADA", 5000000, "FIC");
    ("FDO-ACCIONES", 25000000, "FIC");
    ("FPV_EL CLIENTE_DINAMICA", 10000000, "FPV") ].

(** The [for] loop of [initialize_default_funds]; [ok nm] is whether the
    [save()] of the fund named [nm] goes through. *)
Fixpoint create_and_save (ok : string -> bool)
    (fund_data : list (string * Decimal * string)) : M unit :=
  match fund_data with
  | [] => ret tt
  | (nm, minimum, cat) :: rest =>
      fund <- create_fund nm minimum cat ;;
      save (ok nm) (store_put_fund (fst fund) (snd fund)) ;;;
      create_and_save ok rest
  end.

Definition initialize_default_funds (ok : string -> bool) : M unit :=
  create_and_save ok default_funds.

End Fund.

Module UserBalance.

(** The default of [create_user_balance]: Decimal('500000.00'). *)
Definition initial_balance : Decimal := 50000000.

Definition create_user_balance (initial : Decimal) : UserBalance :=
  {| available_balance := float initial |}.

Definition get_or_create_balance (e : env) (uid : string) : M UserBalance :=
  fun w => match user_balances (db w) !! uid with
           | Some balance => (Returned balance, w)
           | None =>
               (let balance := create_user_balance initial_balance in
                save (balance_create_ok e) (store_put_balance uid balance) ;;;
                ret balance) w
           end.

(** update_balance(self, new_balance): returns the flag and [self]
    after the assignment [self.available_balance = float(new_balance)]. *)
Definition update_balance (e : env) (uid : string) (self : UserBalance)
    (new_balance : Decimal) : M (bool * UserBalance) :=
  let self' := {| available_balance := float new_balance |} in
  try_except
    (save (balance_save_ok e) (store_put_balance uid self') ;;;
     ret (true, self'))
    (fun _ => ret (false, self')).

End UserBalance.

Module Transaction.

(** create_transaction(...) with [amount=float(amount)]; [updated_at]
    is not represented. *)
Definition create_transaction (uid fid : string) (ty : TransactionType)
    (amt : Decimal) (st : Status) : M Transaction :=
  tid <- uuid4 ;;
  now <- utcnow ;;
  ret {| transaction_id := tid; user_id := uid; fund_id := fid;
         transaction_type := ty; amount := float amt; status := st;
         notification_sent := false; created_at := now |}.

(** transaction.save() at the call site numbered by [ok]. *)
Definition save_transaction (ok : bool) (self : Transaction) : M unit :=
  save ok (store_put_transaction self).

(** Order of the index with scan_index_forward=False. *)
Definition newer_first (a b : Transaction) : Prop :=
  created_at b <= created_at a.

#[global] Instance newer_first_dec (a b : Transaction)
  : Decision (newer_first a b).
Proof. unfold newer_first. apply _. Defined.

(** user_index.query(user_id, scan_index_forward=False, limit=limit) *)
Definition user_index_query (ok : bool) (uid : string) (limit : nat)
  : M (list Transaction) :=
  fun w =>
    if ok
    then (Returned
            (take limit
               (merge_sort newer_first
                  (filter (fun t => user_id t = uid) (transactions (db w))))),
          w)
    else (Raised StorageError, w).

Definition get_user_transactions (e : env) (uid : string) (limit : nat)
  : M (list Transaction) :=
  try_except (user_index_query (query_ok e) uid limit) (fun _ => ret []).

(** update_status(self, status): returns the flag and [self] after the
    assignment. *)
Definition update_status (e : env) (self : Transaction) (st : Status)
  : M (bool * Transaction) :=
  let self' := set_status self st in
  try_except
    (save (status_save_ok e) (store_put_transaction self') ;;;
     ret (true, self'))
    (fun _ => ret (false, self')).

End Transaction.

Module UserFund.

(** create_subscription(user_id, fund_id, amount, invested_amount=None);
    the key is given when the record is saved. *)
Definition create_subscription (amt : Decimal) (invested : option Decimal)
  : M UserFund :=
  let invested_amt := match invested with
                      | None => amt
                      | Some x => x
                      end in
  now <- utcnow ;;
  ret {| subscribed_at := now; cancelled_at := None; active := true;
         subscription_amount := float amt;
         invested_amount := float invested_amt |}.

Definition get_subscription (uid fid : string) : M (option UserFund) :=
  fun w => (Returned (user_funds (db w) !! (uid, fid)), w).

Definition is_user_subscribed (uid fid : string) : M bool :=
  subscription <- get_subscription uid fid ;;
  ret (match subscription with
       | Some s => active s
       | None => false
       end).

Definition can_user_subscribe (uid fid : string)
  : M (bool * subscribe_note) :=
  subscription <- get_subscription uid fid ;;
  match subscription with
  | None => ret (true, no_note)
  | Some s =>
      if active s then ret (false, already_active)
      else ret (true, will_reactivate)
  end.

Definition cancel_subscription (e : env) (uid fid : string) (self : UserFund)
  : M (bool * UserFund) :=
  now <- utcnow ;;
  let self' := {| subscribed_at := subscribed_at self;
                  cancelled_at := Some now; active := false;
                  subscription_amount := subscription_amount self;
                  invested_amount := invested_amount self |} in
  try_except
    (save (cancel_save_ok e) (store_put_user_fund uid fid self') ;;;
     ret (true, self'))
    (fun _ => ret (false, self')).

Definition reactivate_subscription (e : env) (uid fid : string)
    (self : UserFund) : M (bool * UserFund) :=
  let self' := {| subscribed_at := subscribed_at self;
                  cancelled_at := None; active := true;
                  subscription_amount := subscription_amount self;
                  invested_amount := invested_amount self |} in
  try_except
    (save (reactivate_save_ok e) (store_put_user_fund uid fid self') ;;;
     ret (true, self'))
    (fun _ => ret (false, self')).

(** Order of a query on the hash key: ascending range key [fund_id]. *)
Definition by_fund_id (a b : string * string * UserFund) : Prop :=
  String.leb (snd (fst a)) (snd (fst b)) = true.

#[global] Instance by_fund_id_dec (a b : string * string * UserFund)
  : Decision (by_fund_id a b).
Proof. unfold by_fund_id. apply _. Defined.

(** cls.query(user_id): the subscriptions of the user with their keys;
    [ok] is whether the query goes through. *)
Definition query (ok : bool) (uid : string)
  : M (list (string * string * UserFund)) :=
  fun w =>
    if ok
    then (Returned
            (merge_sort by_fund_id
               (filter (fun sub => fst (fst sub) = uid)
                  (map_to_list (user_funds (db w))))),
          w)
    else (Raised StorageError, w).

Definition get_user_active_funds (ok : bool) (uid : string)
  : M (list (string * string * UserFund)) :=
  try_except
    (subscriptions <- query ok uid ;;
     ret (filter (fun sub => active (snd sub) = true) subscriptions))
    (fun _ => ret []).

End UserFund.

(** ** [funds/services.py]: class FundService *)

(** Second component of the tuple a service method returns.
    - [fund_not_found]: "El fondo especificado no existe"
    - [fund_unavailable]: "El fondo no esta disponible para suscripciones"
    - [no_available_balance n]: "No tiene saldo disponible para
      vincularse al fondo n"
    - [subscription_ok n]: "Suscripcion exitosa al fondo n"
    - [transaction_error]: "Error procesando la transaccion"
    - [no_active_subscription n]: "No tiene una suscripcion activa al
      fondo n"
    - [cancellation_ok n]: "Cancelacion exitosa del fondo n"
    - [cancellation_error]: "Error procesando la cancelacion" *)
Inductive message :=
  | fund_not_found
  | fund_unavailable
  | no_available_balance (fund_name : string)
  | subscription_ok (fund_name : string)
  | transaction_error
  | no_active_subscription (fund_name : string)
  | cancellation_ok (fund_name : string)
  | cancellation_error.

Module FundService.

Definition subscribe_to_fund (e : env) (uid fid : string)
  : M (bool * message * option Transaction) :=
  found <- except_DoesNotExist (Fund.get fid) ;;
  match found with
  | None => ret (false, fund_not_found, None)
  | Some fund =>
      if negb (is_active fund) then ret (false, fund_unavailable, None)
      else
        user_balance <- UserBalance.get_or_create_balance e uid ;;
        (* Decimal(str(user_balance.available_balance)) *)
        let current_balance := available_balance user_balance in
        (* Decimal(str(fund.minimum_amount)) *)
        let minimum := minimum_amount fund in
        if current_balance <? minimum
        then ret (false, no_available_balance (name fund), None)
        else
          transaction <- Transaction.create_transaction
                           uid fid SUBSCRIPTION minimum PENDING ;;
          Transaction.save_transaction (txn_create_ok e) transaction ;;;
          let new_balance := current_balance - minimum in
          updated <- UserBalance.update_balance
                       e uid user_balance new_balance ;;
          if fst updated
          then
            st <- Transaction.update_status e transaction COMPLETED ;;
            ret (true, subscription_ok (name fund), Some (snd st))
          else
            Transaction.update_status e transaction FAILED ;;;
            ret (false, transaction_error, None)
  end.

(** The generator inside [any(...)]: a completed cancellation of the
    fund created after [transaction]. *)
Definition cancels (fid : string) (transaction t : Transaction) : bool :=
  bool_decide (fund_id t = fid)
  && bool_decide (transaction_type t = CANCELLATION)
  && bool_decide (status t = COMPLETED)
  && (created_at transaction <? created_at t).

(** The test of the [for] loop: a completed subscription to the fund. *)
Definition completed_subscription (fid : string) (transaction : Transaction)
  : bool :=
  bool_decide (fund_id transaction = fid)
  && bool_decide (transaction_type transaction = SUBSCRIPTION)
  && bool_decide (status transaction = COMPLETED).

(** The [for] loop with its [break]: [rest] is what remains to visit,
    [user_transactions] the whole list. *)
Fixpoint find_last_subscription (fid : string)
    (user_transactions rest : list Transaction) : option Transaction :=
  match rest with
  | [] => None
  | transaction :: rest' =>
      if completed_subscription fid transaction
      then
        let already_cancelled :=
          existsb (cancels fid transaction) user_transactions in
        if negb already_cancelled then Some transaction
        else find_last_subscription fid user_transactions rest'
      else find_last_subscription fid user_transactions rest'
  end.

Definition cancel_fund_subscription (e : env) (uid fid : string)
  : M (bool * message * option Transaction) :=
  found <- except_DoesNotExist (Fund.get fid) ;;
  match found with
  | None => ret (false, fund_not_found, None)
  | Some fund =>
      user_transactions <- Transaction.get_user_transactions e uid 50%nat ;;
      match find_last_subscription fid user_transactions user_transactions with
      | None => ret (false, no_active_subscription (name fund), None)
      | Some last_subscription =>
          user_balance <- UserBalance.get_or_create_balance e uid ;;
          let current_balance := available_balance user_balance in
          (* Decimal(str(last_subscription.amount)) *)
          let refund_amount := amount last_subscription in
          transaction <- Transaction.create_transaction
                           uid fid CANCELLATION refund_amount PENDING ;;
          Transaction.save_transaction (txn_create_ok e) transaction ;;;
          let new_balance := current_balance + refund_amount in
          updated <- UserBalance.update_balance
                       e uid user_balance new_balance ;;
          if fst updated
          then
            st <- Transaction.update_status e transaction COMPLETED ;;
            ret (true, cancellation_ok (name fund), Some (snd st))
          else
            Transaction.update_status e transaction FAILED ;;;
            ret (false, cancellation_error, None)
      end
  end.

(** get_available_funds(self); a dictionary made by [to_dict] is
    represented by the record it renders, here and below. *)
Definition get_available_funds (ok : bool) : M (list (string * Fund)) :=
  Fund.get_active_funds ok.

Definition get_fund_details (fid : string) : M (option Fund) :=
  except_DoesNotExist (Fund.get fid).

(** get_user_balance(self, user_id): the entries 'user_id' and
    'available_balance'; 'formatted_balance' is a rendering of the
    latter. *)
Definition get_user_balance (e : env) (uid : string) : M (string * Decimal) :=
  user_balance <- UserBalance.get_or_create_balance e uid ;;
  ret (uid, available_balance user_balance).

(** An item of the transaction history: [transaction.to_dict()] with
    the entries 'fund_name' and 'transaction_type_display' added;
    'formatted_amount' is a rendering of the amount. *)
Record history_item := {
  transaction_data : Transaction;
  fund_name : string;
  transaction_type_display : string }.

(** The [for] loop of [get_user_transaction_history] and of
    [TransactionHistoryView.get]. *)
Fixpoint enrich (transactions : list Transaction) : M (list history_item) :=
  match transactions with
  | [] => ret []
  | transaction :: rest =>
      found <- except_DoesNotExist (Fund.get (fund_id transaction)) ;;
      let item :=
        {| transaction_data := transaction;
           fund_name := match found with
                        | Some fund => name fund
                        | None => "Fondo no encontrado"
                        end;
           transaction_type_display :=
             if bool_decide (transaction_type transaction = SUBSCRIPTION)
             then "Suscripción" else "Cancelación" |} in
      enriched_transactions <- enrich rest ;;
      ret (item :: enriched_transactions)
  end.

Definition get_user_transaction_history (e : env) (uid : string)
    (limit : nat) : M (list history_item) :=
  transactions <- Transaction.get_user_transactions e uid limit ;;
  enrich transactions.

End FundService.

(** ** [funds/serializers.py] *)

Module FundSubscriptionSerializer.

(** validate(self, attrs) with [self.fund_id = fid] and
    [self.user.user_id = uid] (the views always pass a user); returns
    the entries added to [attrs]: fund, user_balance, minimum_amount. *)
Definition validate (e : env) (uid fid : string)
  : M (Fund * UserBalance * Decimal) :=
  if bool_decide (fid = EmptyString) then raise (ValidationError fund_id_required)
  else
    fund <- try_except
              (fund <- Fund.get fid ;;
               if negb (is_active fund)
               then raise (ValidationError fund_not_available)
               else ret fund)
              (fun _ => raise (ValidationError fund_does_not_exist)) ;;
    can <- UserFund.can_user_subscribe uid fid ;;
    if negb (fst can) then raise (ValidationError (subscription_refused (snd can)))
    else
      user_balance <- UserBalance.get_or_create_balance e uid ;;
      let available := available_balance user_balance in
      let minimum := minimum_amount fund in
      if available <? minimum
      then raise (ValidationError (insufficient_balance minimum available))
      else ret (fund, user_balance, minimum).

End FundSubscriptionSerializer.

Module FundCancellationSerializer.

(** validate(self, attrs); returns the entries added to [attrs]: fund,
    subscription, user_balance, refund_amount. *)
Definition validate (e : env) (uid fid : string)
  : M (Fund * UserFund * UserBalance * Decimal) :=
  if bool_decide (fid = EmptyString) then raise (ValidationError fund_id_required)
  else
    fund <- try_except (Fund.get fid)
              (fun _ => raise (ValidationError fund_does_not_exist)) ;;
    found <- UserFund.get_subscription uid fid ;;
    match found with
    | None => raise (ValidationError no_subscription)
    | Some subscription =>
        if negb (active subscription)
        then raise (ValidationError subscription_cancelled)
        else
          user_balance <- UserBalance.get_or_create_balance e uid ;;
          ret (fund, subscription, user_balance, invested_amount subscription)
    end.

End FundCancellationSerializer.

(** serializer.is_valid(): a [ValidationError] of [validate] becomes
    [serializer.errors]; any other exception propagates. *)
Definition is_valid {A} (validate : M A) : M (validation_detail + A) :=
  try_except (x <- validate ;; ret (inr x))
    (fun ex => match ex with
               | ValidationError d => ret (inl d)
               | _ => raise ex
               end).

(** ** [funds/views.py]: the two mutating views *)

(** [user_id] of User.get_default_user(), the single user of the views.
    The user record and the notification preferences are taken to
    exist; the preferred channel does not influence the workflow. *)
Definition default_user_id : string := "user_default".

(** The 'error' entry of a 500 response:
    - [transaction_failed]: 'Transaction failed' (subscribe),
      'Cancellation failed' (cancel)
    - [internal_error]: str(e), 'Error interno del servidor' *)
Inductive server_error := transaction_failed | internal_error.

(** Response(...): the status code and the 'data' entries the claims
    read. *)
Inductive Response :=
  | HTTP_400_BAD_REQUEST (details : validation_detail)
  | HTTP_201_CREATED (txn : Transaction) (amount_charged new_balance : Decimal)
      (notification : bool)
  | HTTP_200_OK (txn : Transaction) (refund_amount new_balance : Decimal)
      (notification : bool)
  | HTTP_500_INTERNAL_SERVER_ERROR (error : server_error).

(** Steps 9: the notification and, when it was sent, the second save of
    the transaction. *)
Definition notify (e : env) (transaction : Transaction)
  : M (bool * Transaction) :=
  let sent := notification_ok e in
  if sent
  then
    let transaction' := set_notification_sent transaction true in
    Transaction.save_transaction (notified_save_ok e) transaction' ;;;
    ret (sent, transaction')
  else ret (sent, transaction).

Module FundSubscribeView.

(** Step 8 of [post]: the body of the inner [try]. *)
Definition upsert_user_fund (e : env) (uid fid : string) (minimum : Decimal)
  : M unit :=
  found <- UserFund.get_subscription uid fid ;;
  match found with
  | Some user_fund =>
      if negb (active user_fund)
      then
        r <- UserFund.reactivate_subscription e uid fid user_fund ;;
        now <- utcnow ;;
        let user_fund' :=
          {| subscribed_at := now; cancelled_at := cancelled_at (snd r);
             active := active (snd r);
             subscription_amount := float minimum;
             invested_amount := float minimum |} in
        save (user_fund_save_ok e) (store_put_user_fund uid fid user_fund')
      else ret tt
  | None =>
      user_fund <- UserFund.create_subscription minimum (Some minimum) ;;
      save (user_fund_save_ok e) (store_put_user_fund uid fid user_fund)
  end.

Definition post (e : env) (fid : string) : M Response :=
  try_except
    (let uid := default_user_id in
     checked <- is_valid (FundSubscriptionSerializer.validate e uid fid) ;;
     match checked with
     | inl errors => ret (HTTP_400_BAD_REQUEST errors)
     | inr (fund, user_balance, minimum) =>
         let current_balance := available_balance user_balance in
         transaction <- Transaction.create_transaction
                          uid fid SUBSCRIPTION minimum PENDING ;;
         Transaction.save_transaction (txn_create_ok e) transaction ;;;
         let new_balance := current_balance - minimum in
         updated <- UserBalance.update_balance
                      e uid user_balance new_balance ;;
         if fst updated
         then
           st <- Transaction.update_status e transaction COMPLETED ;;
           try_except (upsert_user_fund e uid fid minimum)
             (fun _ => ret tt) ;;;
           sent <- notify e (snd st) ;;
           ret (HTTP_201_CREATED (snd sent) minimum new_balance (fst sent))
         else
           Transaction.update_status e transaction FAILED ;;;
           ret (HTTP_500_INTERNAL_SERVER_ERROR transaction_failed)
     end)
    (fun _ => ret (HTTP_500_INTERNAL_SERVER_ERROR internal_error)).

End FundSubscribeView.

Module FundCancellationView.

Definition post (e : env) (fid : string) : M Response :=
  try_except
    (let uid := default_user_id in
     checked <- is_valid (FundCancellationSerializer.validate e uid fid) ;;
     match checked with
     | inl errors => ret (HTTP_400_BAD_REQUEST errors)
     | inr (fund, subscription, user_balance, refund_amount) =>
         let current_balance := available_balance user_balance in
         transaction <- Transaction.create_transaction
                          uid fid CANCELLATION refund_amount PENDING ;;
         Transaction.save_transaction (txn_create_ok e) transaction ;;;
         let new_balance := current_balance + refund_amount in
         updated <- UserBalance.update_balance
                      e uid user_balance new_balance ;;
         if fst updated
         then
           st <- Transaction.update_status e transaction COMPLETED ;;
           try_except
             (UserFund.cancel_subscription e uid fid subscription ;;; ret tt)
             (fun _ => ret tt) ;;;
           sent <- notify e (snd st) ;;
           ret (HTTP_200_OK (snd sent) refund_amount new_balance (fst sent))
         else
           Transaction.update_status e transaction FAILED ;;;
           ret (HTTP_500_INTERNAL_SERVER_ERROR transaction_failed)
     end)
    (fun _ => ret (HTTP_500_INTERNAL_SERVER_ERROR internal_error)).

End FundCancellationView.

(** ** [funds/views.py]: the reading views *)

Module GET.

(** Response(...) of a reading view: the status code and the 'data'
    entry; the 'message' entry is a text computed from the data. *)
Inductive Response (A : Type) :=
  | HTTP_200_OK (data : A)
  | HTTP_404_NOT_FOUND
  | HTTP_500_INTERNAL_SERVER_ERROR.
Arguments HTTP_200_OK {A} data.
Arguments HTTP_404_NOT_FOUND {A}.
Arguments HTTP_500_INTERNAL_SERVER_ERROR {A}.

End GET.

Module FundListView.

Definition get (ok : bool) : M (GET.Response (list (string * Fund))) :=
  try_except
    (active_funds <- Fund.get_active_funds ok ;;
     ret (GET.HTTP_200_OK active_funds))
    (fun _ => ret GET.HTTP_500_INTERNAL_SERVER_ERROR).

End FundListView.

Module FundDetailView.

Definition get (fid : string) : M (GET.Response Fund) :=
  try_except
    (fund <- Fund.get fid ;; ret (GET.HTTP_200_OK fund))
    (fun ex => match ex with
               | DoesNotExist => ret GET.HTTP_404_NOT_FOUND
               | _ => ret GET.HTTP_500_INTERNAL_SERVER_ERROR
               end).

End FundDetailView.

Module UserBalanceView.

(** The entries 'user_id' and 'available_balance' of the data. *)
Definition get (e : env) : M (GET.Response (string * Decimal)) :=
  let uid := default_user_id in
  try_except
    (user_balance <- UserBalance.get_or_create_balance e uid ;;
     ret (GET.HTTP_200_OK (uid, available_balance user_balance)))
    (fun _ => ret GET.HTTP_500_INTERNAL_SERVER_ERROR).

End UserBalanceView.

Module TransactionHistoryView.

(** [limit] is the query parameter 'limit' when the request gives one
    (a natural number); the default is 10. *)
Definition get (e : env) (limit : option nat)
  : M (GET.Response (list FundService.history_item)) :=
  let uid := default_user_id in
  let limit := default 10%nat limit in
  try_except
    (transactions <- Transaction.get_user_transactions e uid limit ;;
     enriched_transactions <- FundService.enrich transactions ;;
     ret (GET.HTTP_200_OK enriched_transactions))
    (fun _ => ret GET.HTTP_500_INTERNAL_SERVER_ERROR).

End TransactionHistoryView.

Module UserActiveFundsView.

(** The [for] loop of [get]: a subscription whose fund exists is listed
    with the fund; one whose fund does not exist is cancelled.  [e f]
    gives the outcome of the storage calls made for the subscription to
    the fund [f]. *)
Fixpoint enrich (e : string -> env)
    (active_subscriptions : list (string * string * UserFund))
  : M (list (string * string * UserFund * (string * Fund))) :=
  match active_subscriptions with
  | [] => ret []
  | subscription :: rest =>
      let uid := fst (fst subscription) in
      let fid := snd (fst subscription) in
      found <- except_DoesNotExist (Fund.get fid) ;;
      match found with
      | Some fund =>
          enriched_funds <- enrich e rest ;;
          ret ((subscription, (fid, fund)) :: enriched_funds)
      | None =>
          UserFund.cancel_subscription (e fid) uid fid (snd subscription) ;;;
          enrich e rest
      end
  end.

Definition get (ok : bool) (e : string -> env)
  : M (GET.Response (list (string * string * UserFund * (string * Fund)))) :=
  try_except
    (active_subscriptions <-
       UserFund.get_user_active_funds ok default_user_id ;;
     enriched_funds <- enrich e active_subscriptions ;;
     ret (GET.HTTP_200_OK enriched_funds))
    (fun _ => ret GET.HTTP_500_INTERNAL_SERVER_ERROR).

End UserActiveFundsView.

(** ** Notification preferences *)

(** The table of [UserNotifications] is threaded explicitly: a method
    takes the table and returns it with its result. *)
Module UserNotifications.

(** class UserNotifications; the hash key [user_id] is the key of the
    table. *)
Record t := {
  notification_type : string;
  email_enabled : bool;
  sms_enabled : bool }.

Definition get_or_create_preferences (ok : bool) (uid : string)
    (table : gmap string t) : result t * gmap string t :=
  match table !! uid with
  | Some preferences => (Returned preferences, table)
  | None =>
      let preferences :=
        {| notification_type := "email"; email_enabled := true;
           sms_enabled := false |} in
      if ok then (Returned preferences, <[uid := preferences]> table)
      else (Raised StorageError, table)
  end.

(** update_notification_type(self, notification_type): the flag and
    [self] after the assignments. *)
Definition update_notification_type (ok : bool) (uid : string) (self : t)
    (new_type : string) (table : gmap string t)
  : bool * t * gmap string t :=
  if negb (bool_decide (new_type ∈ ["email"; "sms"]))
  then (false, self, table)
  else
    let self' :=
      {| notification_type := new_type;
         email_enabled := bool_decide (new_type = "email");
         sms_enabled := bool_decide (new_type = "sms") |} in
    if ok then (true, self', <[uid := self']> table)
    else (false, self', table).

Definition get_preferred_notification_type (self : t) : string :=
  notification_type self.

End UserNotifications.

Module NotificationPreferencesSerializer.

(** choices of the field [notification_type]. *)
Definition choices : list string := ["email"; "sms"].

(** validate_notification_type(self, value): [None] stands for the
    [ValidationError]. *)
Definition validate_notification_type (value : string) : option string :=
  if negb (bool_decide (value ∈ ["email"; "sms"])) then None else Some value.

(** is_valid() on the data of the request, where [data] is the entry
    'notification_type' of the data when it is a string: the field is
    required, a [ChoiceField] accepts the values of [choices], and
    [validate_notification_type] runs on an accepted value.  Returns
    [validated_data['notification_type']]. *)
Definition is_valid (data : option string) : option string :=
  match data with
  | None => None
  | Some value =>
      if bool_decide (value ∈ choices) then validate_notification_type value
      else None
  end.

End NotificationPreferencesSerializer.

(** Response(...) of the view that updates the preferences. *)
Inductive PreferencesResponse :=
  | preferences_200_OK (data : UserNotifications.t)
  | preferences_400_BAD_REQUEST
  | preferences_500_INTERNAL_SERVER_ERROR.

Module UserNotificationPreferencesView.

Definition get (ok : bool) (table : gmap string UserNotifications.t)
  : PreferencesResponse * gmap string UserNotifications.t :=
  match UserNotifications.get_or_create_preferences ok default_user_id table
  with
  | (Returned preferences, table') => (preferences_200_OK preferences, table')
  | (Raised _, table') => (preferences_500_INTERNAL_SERVER_ERROR, table')
  end.

End UserNotificationPreferencesView.

Module UpdateNotificationPreferencesView.

(** [create_ok] and [update_ok] are the outcomes of the [save()] of
    [get_or_create_preferences] and of [update_notification_type]. *)
Definition put (create_ok update_ok : bool) (data : option string)
    (table : gmap string UserNotifications.t)
  : PreferencesResponse * gmap string UserNotifications.t :=
  match NotificationPreferencesSerializer.is_valid data with
  | None => (preferences_400_BAD_REQUEST, table)
  | Some new_type =>
      match UserNotifications.get_or_create_preferences
              create_ok default_user_id table with
      | (Raised _, table') => (preferences_500_INTERNAL_SERVER_ERROR, table')
      | (Returned preferences, table') =>
          match UserNotifications.update_notification_type
                  update_ok default_user_id preferences new_type table' with
          | (true, preferences', table'') =>
              (preferences_200_OK preferences', table'')
          | (false, _, table'') =>
              (preferences_500_INTERNAL_SERVER_ERROR, table'')
          end
      end
  end.

End UpdateNotificationPreferencesView.

(** ** [funds/setup_simple.py]: the initial data *)

Module User.

(** class User; the hash key [user_id] is the key of the table. *)
Record t := {
  name : string;
  email : string;
  phone : string;
  document_number : string;
  document_type : string }.

(** get_default_user(cls), on the table of users. *)
Definition get_default_user (ok : bool) (users : gmap string t)
  : result t * gmap string t :=
  match users !! default_user_id with
  | Some user => (Returned user, users)
  | None =>
      let user :=
        {| name := "Cliente de Prueba"; email := "palis963@hotmail.com";
           phone := "+573163789817"; document_number := "1234567890";
           document_type := "CC" |} in
      if ok then (Returned user, <[default_user_id := user]> users)
      else (Raised StorageError, users)
  end.

End User.

(** All the tables: those of the workflows, the users and the
    notification preferences. *)
Record site := {
  users : gmap string User.t;
  user_notifications : gmap string UserNotifications.t;
  tables : world }.

(** Outcome of the storage calls of [initialize_data_simple]. *)
Record setup_env := {
  user_save_ok : bool;         (* user.save() in get_default_user *)
  balance_env : env;           (* get_or_create_balance *)
  preferences_save_ok : bool;  (* preferences.save() *)
  fund_scan_ok : bool;         (* Fund.scan(limit=1) *)
  fund_save_ok : string -> bool }.  (* fund.save(), by name of the fund *)

(** initialize_data_simple(): every exception ends the function with
    [False]; what was written before it stays written. *)
Definition initialize_data_simple (e : setup_env) (s : site) : bool * site :=
  match User.get_default_user (user_save_ok e) (users s) with
  | (Raised _, users') =>
      (false, {| users := users';
                 user_notifications := user_notifications s;
                 tables := tables s |})
  | (Returned user, users') =>
      match UserBalance.get_or_create_balance
              (balance_env e) default_user_id (tables s) with
      | (Raised _, w1) =>
          (false, {| users := users';
                     user_notifications := user_notifications s;
                     tables := w1 |})
      | (Returned balance, w1) =>
          match UserNotifications.get_or_create_preferences
                  (preferences_save_ok e) default_user_id
                  (user_notifications s) with
          | (Raised _, prefs') =>
              (false, {| users := users'; user_notifications := prefs';
                         tables := w1 |})
          | (Returned notifications, prefs') =>
              match Fund.scan (fund_scan_ok e) (Some 1%nat) w1 with
              | (Raised _, w2) =>
                  (false, {| users := users'; user_notifications := prefs';
                             tables := w2 |})
              | (Returned found, w2) =>
                  let funds_count := length found in
                  if (funds_count =? 0)%nat
                  then
                    match Fund.initialize_default_funds (fund_save_ok e) w2
                    with
                    | (Returned _, w3) =>
                        (true, {| users := users';
                                  user_notifications := prefs';
                                  tables := w3 |})
                    | (Raised _, w3) =>
                        (false, {| users := users';
                                   user_notifications := prefs';
                                   tables := w3 |})
                    end
                  else
                    (true, {| users := users'; user_notifications := prefs';
                              tables := w2 |})
              end
          end
      end
  end.

(** ** Observations, requests and invariants used by the statements *)

(** The balance a user has: the stored one, or the default that
    [get_or_create_balance] creates at the first access. *)
Definition balance_of (s : store) (uid : string) : Decimal :=
  match user_balances s !! uid with
  | Some b => available_balance b
  | None => UserBalance.initial_balance
  end.

Definition find_transaction (tid : positive) (s : store)
  : option Transaction :=
  List.find (fun t => bool_decide (transaction_id t = tid)) (transactions s).

Definition status_in (s : store) (tid : positive) : option Status :=
  status <$> find_transaction tid s.

(** The four entry points. *)
Inductive request :=
  | service_subscribe (e : env) (uid fid : string)
  | service_cancel (e : env) (uid fid : string)
  | view_subscribe (e : env) (fid : string)
  | view_cancel (e : env) (fid : string).

Definition handle (r : request) (w : world) : world :=
  match r with
  | service_subscribe e uid fid =>
      snd (FundService.subscribe_to_fund e uid fid w)
  | service_cancel e uid fid =>
      snd (FundService.cancel_fund_subscription e uid fid w)
  | view_subscribe e fid => snd (FundSubscribeView.post e fid w)
  | view_cancel e fid => snd (FundCancellationView.post e fid w)
  end.

Definition run (rs : list request) (w : world) : world :=
  fold_left (fun w r => handle r w) rs w.

(** Identifiers drawn so far are below the next one (uuid4 never
    repeats), and stored timestamps are in the past. *)
Definition fresh_ids (w : world) : Prop :=
  Forall (fun t => (transaction_id t < next_uuid w)%positive)
         (transactions (db w)).

Definition ledger_before_clock (w : world) : Prop :=
  Forall (fun t => created_at t < clock w) (transactions (db w)).

Definition well_formed (w : world) : Prop :=
  fresh_ids w /\ ledger_before_clock w.

(** Section 3 of the specification: minimum amounts and recorded amounts
    are not negative. *)
Definition nonneg_amounts (s : store) : Prop :=
  (forall fid fund, funds s !! fid = Some fund -> 0 <= minimum_amount fund)
  /\ (forall uid b, user_balances s !! uid = Some b ->
                    0 <= available_balance b)
  /\ Forall (fun t => 0 <= amount t) (transactions s)
  /\ (forall k r, user_funds s !! k = Some r -> 0 <= invested_amount r).

(** The tables as they were after each write, most recent first. *)
Definition history (w : world) : list store := db w :: journal w.

(** The moves of a stored status between two successive writes: none,
    creation as PENDING, or PENDING to a terminal status. *)
Definition status_move (a b : option Status) : Prop :=
  a = b
  \/ (a = None /\ b = Some PENDING)
  \/ (a = Some PENDING /\ (b = Some COMPLETED \/ b = Some FAILED)).

Definition lawful_write (older newer : store) : Prop :=
  forall tid, status_move (status_in older tid) (status_in newer tid).

(** Every write recorded in [h] (most recent first) is lawful. *)
Inductive lawful_history : list store -> Prop :=
  | lawful_nil : lawful_history []
  | lawful_one (s : store) : lawful_history [s]
  | lawful_cons (newer older : store) (h : list store) :
      lawful_write older newer ->
      lawful_history (older :: h) ->
      lawful_history (newer :: older :: h).

(** No active subscription of the user to the fund is registered: what
    [can_user_subscribe] accepts. *)
Definition may_subscribe (s : store) (uid fid : string) : Prop :=
  match user_funds s !! (uid, fid) with
  | Some r => active r = false
  | None => True
  end.

(** What the index query returns when it goes through: the [limit] most
    recent transactions of the user, newest first. *)
Definition ledger_window (s : store) (uid : string) (limit : nat)
  : list Transaction :=
  take limit
    (merge_sort Transaction.newer_first
       (filter (fun t => user_id t = uid) (transactions s))).

(** The condition under which the loop of [cancel_fund_subscription]
    stops at [t]: a completed subscription to the fund with no completed
    cancellation of the fund created later, among [l]. *)
Definition eligible (fid : string) (l : list Transaction) (t : Transaction)
  : bool :=
  FundService.completed_subscription fid t
  && negb (existsb (FundService.cancels fid t) l).

(** The condition of section 4.6, step 2, on a transaction [t] among
    [l]: a completed subscription to the fund that no completed
    cancellation of the fund follows. *)
Definition open_subscription (fid : string) (l : list Transaction)
    (t : Transaction) : Prop :=
  fund_id t = fid /\ transaction_type t = SUBSCRIPTION
  /\ status t = COMPLETED
  /\ ~ exists c, c ∈ l /\ fund_id c = fid
                 /\ transaction_type c = CANCELLATION
                 /\ status c = COMPLETED
                 /\ created_at t < created_at c.

(** The contents of the tables written between [w] and [w'], most
    recent first. *)
Definition written_during (w w' : world) : list store :=
  take (length (journal w') - length (journal w)) (history w').

(** The record [create_transaction] builds in [w], before it is saved. *)
Definition pending_transaction (w : world) (uid fid : string)
    (ty : TransactionType) (amt : Decimal) : Transaction :=
  {| transaction_id := next_uuid w; user_id := uid; fund_id := fid;
     transaction_type := ty; amount := float amt; status := PENDING;
     notification_sent := false; created_at := clock w |}.

Definition all_ok : env :=
  {| balance_create_ok := true; txn_create_ok := true;
     balance_save_ok := true; status_save_ok := true; query_ok := true;
     reactivate_save_ok := true; user_fund_save_ok := true;
     cancel_save_ok := true; notification_ok := true;
     notified_save_ok := true |}.

(** Sample data: the second default fund of [initialize_default_funds]
    (minimum 125000), the single user, and a ledger in the shape of
    [test_multiple_subscriptions_to_same_fund]. *)
Definition ecopetrol : Fund :=
  {| name := "FPV_EL CLIENTE_ECOPETROL"; minimum_amount := 12500000;
     category := "FPV"; is_active := true |}.

Definition sample_store (balance : option Decimal) (ledger : list Transaction)
  : store :=
  {| funds := {[ "fund-2" := ecopetrol ]};
     user_balances :=
       match balance with
       | Some b => {[ default_user_id := {| available_balance := b |} ]}
       | None => ∅
       end;
     transactions := ledger;
     user_funds := ∅ |}.

Definition sample_world (balance : option Decimal) : world :=
  {| db := sample_store balance []; clock := 0; next_uuid := 1;
     journal := [] |}.

Definition sample_ledger : list Transaction :=
  [ {| transaction_id := 1; user_id := default_user_id; fund_id := "fund-2";
       transaction_type := SUBSCRIPTION; amount := 12500000;
       status := COMPLETED; notification_sent := false; created_at := 1 |};
    {| transaction_id := 2; user_id := default_user_id; fund_id := "fund-2";
       transaction_type := CANCELLATION; amount := 12500000;
       status := COMPLETED; notification_sent := false; created_at := 5 |};
    {| transaction_id := 3; user_id := default_user_id; fund_id := "fund-2";
       transaction_type := SUBSCRIPTION; amount := 15000000;
       status := COMPLETED; notification_sent := false; created_at := 9 |} ].

Definition sample_ledger_world : world :=
  {| db := sample_store (Some 20000000) sample_ledger; clock := 10;
     next_uuid := 4; journal := [] |}.


(** The balance write and the status write both fail. *)
Definition writes_fail : env :=
  {| balance_create_ok := true; txn_create_ok := true;
     balance_save_ok := false; status_save_ok := false; query_ok := true;
     reactivate_save_ok := true; user_fund_save_ok := true;
     cancel_save_ok := true; notification_ok := true;
     notified_save_ok := true |}.

(** The index query fails. *)
Definition query_fails : env :=
  {| balance_create_ok := true; txn_create_ok := true;
     balance_save_ok := true; status_save_ok := true; query_ok := false;
     reactivate_save_ok := true; user_fund_save_ok := true;
     cancel_save_ok := true; notification_ok := true;
     notified_save_ok := true |}.

(** The status write fails, every other call goes through. *)
Definition status_write_fails : env :=
  {| balance_create_ok := true; txn_create_ok := true;
     balance_save_ok := true; status_save_ok := false; query_ok := true;
     reactivate_save_ok := true; user_fund_save_ok := true;
     cancel_save_ok := true; notification_ok := true;
     notified_save_ok := true |}.

(** The [user_fund.save()] of [FundSubscribeView.post] fails, every
    other call goes through. *)
Definition record_write_fails : env :=
  {| balance_create_ok := true; txn_create_ok := true;
     balance_save_ok := true; status_save_ok := true; query_ok := true;
     reactivate_save_ok := true; user_fund_save_ok := false;
     cancel_save_ok := true; notification_ok := true;
     notified_save_ok := true |}.

(** A subscription of the single user to the sample fund that was made
    and cancelled when 100000 was charged: the record is inactive. *)
Definition sample_inactive_world : world :=
  {| db := store_put_user_fund default_user_id "fund-2"
             {| subscribed_at := 1; cancelled_at := Some 5; active := false;
                subscription_amount := 10000000;
                invested_amount := 10000000 |}
             (sample_store (Some 50000000) []);
     clock := 6; next_uuid := 3; journal := [] |}.

(** An active subscription of the single user to the sample fund, with
    150000 invested. *)
Definition sample_subscription : UserFund :=
  {| subscribed_at := 9; cancelled_at := None; active := true;
     subscription_amount := 15000000; invested_amount := 15000000 |}.

Definition sample_subscribed_world : world :=
  {| db := store_put_user_fund default_user_id "fund-2" sample_subscription
             (sample_store (Some 20000000) sample_ledger);
     clock := 10; next_uuid := 4; journal := [] |}.

(** A balance of 9007199254740994, which a binary64 number holds, and a
    fund whose minimum is 1. *)
Definition one_peso_fund : Fund :=
  {| name := "DEUDAPRIVADA"; minimum_amount := 100; category := "FIC";
     is_active := true |}.

Definition large_world : world :=
  {| db := {| funds := {[ "fund-3" := one_peso_fund ]};
              user_balances :=
                {[ default_user_id :=
                     {| available_balance := 900719925474099400 |} ]};
              transactions := [];
              user_funds := ∅ |};
     clock := 0; next_uuid := 1; journal := [] |}.

(** * Properties *)

(** ** Numbers that a float stores exactly *)

Lemma round_half_even_near (p q : Z) :
  0 <= p -> 0 < q ->
  2 * Z.abs (q * binary64.round_half_even p q - p) <= q.
Proof.
  intros Hp Hq. unfold binary64.round_half_even.
  pose proof (Z.div_mod p q ltac:(lia)) as Hdm.
  pose proof (Z.mod_pos_bound p q Hq) as Hr.
  destruct (Z.ltb_spec (2 * (p mod q)) q);
    [|destruct (Z.ltb_spec q (2 * (p mod q)));
      [|destruct (Z.even (p / q))]]; nia.
Qed.

Lemma nearest_near (a m e : Z) :
  0 < a -> binary64.nearest a 100 = (m, e) -> e < 0 ->
  Z.abs (a * 2 ^ (- e) - 100 * m) <= 50.
Proof.
  intros Ha Hn He. unfold binary64.nearest in Hn.
  set (g := Z.log2 a - Z.log2 100 - 52) in Hn.
  set (e0 := if fst (binary64.scaled a 100 g)
                  <? 2 ^ 52 * snd (binary64.scaled a 100 g)
             then g - 1 else g) in Hn.
  destruct (Z.eqb_spec
              (binary64.round_half_even (fst (binary64.scaled a 100 e0))
                 (snd (binary64.scaled a 100 e0))) (2 ^ 53)) as [Hov|Hno].
  - injection Hn as <- <-.
    assert (He0 : e0 < 0) by lia.
    unfold binary64.scaled in Hov.
    rewrite (proj2 (Z.ltb_lt e0 0) He0) in Hov. simpl fst in Hov.
    simpl snd in Hov.
    pose proof (round_half_even_near (a * 2 ^ (- e0)) 100) as Hnear.
    rewrite Hov in Hnear.
    assert (Hpos : 0 < 2 ^ (- e0)) by (apply Z.pow_pos_nonneg; lia).
    specialize (Hnear ltac:(nia) ltac:(lia)).
    replace (- e0) with (Z.succ (- (e0 + 1))) in Hnear by lia.
    rewrite Z.pow_succ_r in Hnear by lia.
    change (2 ^ 53) with (2 * 2 ^ 52) in Hnear. lia.
  - injection Hn as <- <-.
    unfold binary64.scaled.
    rewrite (proj2 (Z.ltb_lt e0 0) He). simpl fst. simpl snd.
    assert (Hpos : 0 < 2 ^ (- e0)) by (apply Z.pow_pos_nonneg; lia).
    pose proof (round_half_even_near (a * 2 ^ (- e0)) 100
                  ltac:(nia) ltac:(lia)) as Hnear.
    lia.
Qed.

Lemma nearest_exponent (a m e : Z) :
  0 < a < 10 ^ 15 -> binary64.nearest a 100 = (m, e) -> e <= -8.
Proof.
  intros Ha Hn. unfold binary64.nearest in Hn.
  assert (Hlog : Z.log2 a < 50).
  { apply Z.log2_lt_pow2; [lia|].
    change (2 ^ 50) with 1125899906842624.
    change (10 ^ 15) with 1000000000000000 in Ha. lia. }
  change (Z.log2 100) with 6 in Hn.
  set (g := Z.log2 a - 6 - 52) in Hn.
  set (e0 := if fst (binary64.scaled a 100 g)
                  <? 2 ^ 52 * snd (binary64.scaled a 100 g)
             then g - 1 else g) in Hn.
  assert (He0 : e0 <= g) by (unfold e0; destruct (_ <? _); lia).
  destruct (_ =? _); injection Hn as <- <-; lia.
Qed.

Lemma nearest_inj (a c m e : Z) :
  0 < a -> 0 < c -> e <= -8 ->
  binary64.nearest a 100 = (m, e) -> binary64.nearest c 100 = (m, e) ->
  a = c.
Proof.
  intros Ha Hc He Hna Hnc.
  pose proof (nearest_near a m e Ha Hna ltac:(lia)) as H1.
  pose proof (nearest_near c m e Hc Hnc ltac:(lia)) as H2.
  assert (Hp : 2 ^ 8 <= 2 ^ (- e)) by (apply Z.pow_le_mono_r; lia).
  change (2 ^ 8) with 256 in Hp. nia.
Qed.

Lemma reads_as_spec (m e c : Z) :
  binary64.reads_as m e c = true
  <-> 0 < c /\ binary64.nearest c 100 = (m, e).
Proof.
  unfold binary64.reads_as.
  rewrite andb_true_iff, Z.ltb_lt, bool_decide_eq_true. tauto.
Qed.

Lemma candidate_reads_as (m e c : Z) (j : nat) :
  binary64.candidate m e j = Some c -> binary64.reads_as m e c = true.
Proof.
  unfold binary64.candidate.
  set (lo := fst (binary64.below m e j)).
  destruct (binary64.reads_as m e lo) eqn:Hlo;
    destruct (binary64.reads_as m e (lo + 10 ^ Z.of_nat j)) eqn:Hhi;
    try destruct (snd (binary64.below m e j));
    try destruct (Z.even _);
    intros [= <-]; assumption.
Qed.

Lemma shortest_reads_as (m e c : Z) (j : nat) :
  binary64.shortest m e j = Some c -> binary64.reads_as m e c = true.
Proof.
  induction j as [|j IH]; simpl;
    destruct (binary64.candidate m e _) as [c'|] eqn:Hc;
    try discriminate; try (intros [= <-]; eapply candidate_reads_as; eauto).
  exact IH.
Qed.

Lemma candidate_unit (a m e : Z) :
  0 < a -> e <= -8 -> binary64.nearest a 100 = (m, e) ->
  binary64.candidate m e 0 = Some a.
Proof.
  intros Ha He Hn.
  pose proof (nearest_near a m e Ha Hn ltac:(lia)) as Hnear.
  assert (Hp : 2 ^ 8 <= 2 ^ (- e)) by (apply Z.pow_le_mono_r; lia).
  change (2 ^ 8) with 256 in Hp.
  assert (Hlo : fst (binary64.below m e 0) = a
                \/ fst (binary64.below m e 0) = a - 1).
  { unfold binary64.below, binary64.scaled.
    rewrite (proj2 (Z.ltb_ge (- e) 0)) by lia. simpl fst. simpl snd.
    change (10 ^ Z.of_nat 0) with 1. rewrite !Z.mul_1_l, Z.mul_1_r.
    pose proof (Z.div_mod (100 * m) (2 ^ (- e)) ltac:(lia)) as Hdm.
    pose proof (Z.mod_pos_bound (100 * m) (2 ^ (- e)) ltac:(lia)) as Hr.
    nia. }
  assert (Hra : binary64.reads_as m e a = true)
    by (apply reads_as_spec; auto).
  assert (Hother : forall c, c <> a -> binary64.reads_as m e c = false).
  { intros c Hne. apply not_true_iff_false. intros Hc.
    apply reads_as_spec in Hc as [Hc0 Hc]. apply Hne. symmetry.
    eapply nearest_inj; eauto. }
  unfold binary64.candidate. change (10 ^ Z.of_nat 0) with 1.
  destruct Hlo as [-> | ->].
  - rewrite Hra, (Hother (a + 1)) by lia. reflexivity.
  - replace (a - 1 + 1) with a by lia.
    rewrite Hra, (Hother (a - 1)) by lia. reflexivity.
Qed.

Lemma shortest_exact (a m e : Z) (j : nat) :
  0 < a -> e <= -8 -> binary64.nearest a 100 = (m, e) ->
  binary64.shortest m e j = Some a.
Proof.
  intros Ha He Hn. induction j as [|j IH]; simpl.
  - rewrite (candidate_unit a m e Ha He Hn). reflexivity.
  - destruct (binary64.candidate m e (S j)) as [c|] eqn:Hc; [|exact IH].
    apply candidate_reads_as, reads_as_spec in Hc as [Hc0 Hc].
    f_equal. eapply nearest_inj; eauto.
Qed.

(** An amount of at most 15 significant digits (below 10^13 with two
    decimals) is stored and read back as it is. *)
Lemma float_exact (d : Z) : Z.abs d < 10 ^ 15 -> float d = d.
Proof.
  intros Hd. unfold float.
  destruct (Z.eqb_spec d 0) as [->|Hne]; [reflexivity|].
  destruct (binary64.nearest (Z.abs d) 100) as [m e] eqn:Hn.
  assert (Ha : 0 < Z.abs d < 10 ^ 15) by lia.
  pose proof (nearest_exponent _ _ _ Ha Hn) as He.
  rewrite (shortest_exact (Z.abs d) m e _ ltac:(lia) He Hn). lia.
Qed.

Lemma float_nonneg (d : Z) : 0 <= d -> 0 <= float d.
Proof.
  intros Hd. unfold float.
  destruct (Z.eqb_spec d 0) as [->|Hne]; [lia|].
  destruct (binary64.nearest (Z.abs d) 100) as [m e].
  destruct (binary64.shortest m e _) as [c|] eqn:Hs; [|exact Hd].
  apply shortest_reads_as, reads_as_spec in Hs as [Hc _]. nia.
Qed.

(** What has been stored is stored again as it is. *)
Lemma float_idempotent (d : Z) : float (float d) = float d.
Proof.
  destruct (Z.eqb_spec d 0) as [->|Hne]; [reflexivity|].
  assert (Hf : float d
               = let (m, e) := binary64.nearest (Z.abs d) 100 in
                 match binary64.shortest m e (Z.to_nat (60 + e)) with
                 | Some c => Z.sgn d * c
                 | None => d
                 end).
  { unfold float. rewrite (proj2 (Z.eqb_neq d 0) Hne). reflexivity. }
  destruct (binary64.nearest (Z.abs d) 100) as [m e] eqn:Hn.
  destruct (binary64.shortest m e _) as [c|] eqn:Hs.
  - pose proof (shortest_reads_as _ _ _ _ Hs) as Hr.
    apply reads_as_spec in Hr as [Hc Hnc].
    rewrite Hf. unfold float.
    destruct (Z.eqb_spec (Z.sgn d * c) 0) as [H0|_]; [nia|].
    assert (Habs : Z.abs (Z.sgn d * c) = c) by nia.
    rewrite Habs, Hnc, Hs.
    assert (Hsg : Z.sgn (Z.sgn d * c) = Z.sgn d) by nia.
    rewrite Hsg. reflexivity.
  - rewrite Hf. exact Hf.
Qed.

Lemma float_in_range (d : Decimal) : 0 <= d < float_limit -> float d = d.
Proof.
  unfold float_limit. intros Hd. apply float_exact. lia.
Qed.

Lemma float_initial_balance :
  float UserBalance.initial_balance = UserBalance.initial_balance.
Proof. apply float_exact. vm_compute. reflexivity. Qed.

(** ** Symbolic execution of the request monad *)

Ltac unfold_models :=
  unfold is_valid, notify, except_DoesNotExist in *;
  unfold UserFund.can_user_subscribe, UserFund.is_user_subscribed in *;
  unfold Transaction.update_status, Transaction.save_transaction,
    Transaction.create_transaction, Transaction.get_user_transactions,
    Transaction.user_index_query,
    UserBalance.update_balance, UserBalance.get_or_create_balance,
    UserBalance.create_user_balance,
    UserFund.get_subscription,
    UserFund.cancel_subscription, UserFund.reactivate_subscription,
    UserFund.create_subscription,
    Fund.get in *;
  unfold try_except, bind, ret, raise, save, utcnow, uuid4 in *;
  rewrite ?float_initial_balance in *.

Ltac case_ltb :=
  match goal with
  | |- context [?a <? ?b] => destruct (Z.ltb_spec a b); try lia
  end.

Lemma service_subscribe_sufficient (e : env) (uid fid : string) (w : world)
    (fund : Fund) :
  funds (db w) !! fid = Some fund ->
  is_active fund = true ->
  minimum_amount fund <= balance_of (db w) uid ->
  balance_create_ok e = true -> txn_create_ok e = true ->
  balance_save_ok e = true ->
  exists t w',
    FundService.subscribe_to_fund e uid fid w
      = (Returned (true, subscription_ok (name fund), Some t), w')
    /\ transaction_type t = SUBSCRIPTION
    /\ amount t = float (minimum_amount fund)
    /\ balance_of (db w') uid
       = float (balance_of (db w) uid - minimum_amount fund).
Proof.
  intros Hf Ha Hb Hc Ht Hs.
  unfold FundService.subscribe_to_fund. unfold_models.
  rewrite Hf. simpl. rewrite Ha. simpl.
  unfold balance_of in Hb |- *.
  destruct (user_balances (db w) !! uid) as [b|] eqn:Hu; simpl.
  - destruct (Z.ltb_spec (available_balance b) (minimum_amount fund)); [lia|].
    rewrite Ht. simpl. rewrite Hs. simpl.
    destruct (status_save_ok e); simpl;
      eexists; eexists; (split; [reflexivity|]); simpl;
      repeat split; rewrite lookup_insert_eq; reflexivity.
  - rewrite Hc. simpl.
    destruct (Z.ltb_spec UserBalance.initial_balance (minimum_amount fund)); [lia|].
    rewrite Ht. simpl. rewrite Hs. simpl.
    destruct (status_save_ok e); simpl;
      eexists; eexists; (split; [reflexivity|]); simpl;
      repeat split; rewrite lookup_insert_eq; reflexivity.
Qed.

Lemma service_subscribe_insufficient (e : env) (uid fid : string) (w : world)
    (fund : Fund) :
  funds (db w) !! fid = Some fund ->
  is_active fund = true ->
  balance_of (db w) uid < minimum_amount fund ->
  balance_create_ok e = true ->
  exists w',
    FundService.subscribe_to_fund e uid fid w
      = (Returned (false, no_available_balance (name fund), None), w')
    /\ balance_of (db w') uid = balance_of (db w) uid
    /\ transactions (db w') = transactions (db w)
    /\ user_funds (db w') = user_funds (db w).
Proof.
  intros Hf Ha Hb Hc.
  unfold FundService.subscribe_to_fund. unfold_models.
  rewrite Hf. simpl. rewrite Ha. simpl.
  unfold balance_of in Hb |- *.
  destruct (user_balances (db w) !! uid) as [b|] eqn:Hu; simpl.
  - destruct (Z.ltb_spec (available_balance b) (minimum_amount fund)); [|lia].
    eexists. split; [reflexivity|]. rewrite Hu. auto.
  - rewrite Hc. simpl.
    destruct (Z.ltb_spec UserBalance.initial_balance (minimum_amount fund)); [|lia].
    eexists. split; [reflexivity|]. simpl. rewrite lookup_insert_eq. auto.
Qed.

Ltac unfold_views :=
  unfold FundSubscribeView.post, FundCancellationView.post,
    FundSubscribeView.upsert_user_fund,
    FundSubscriptionSerializer.validate,
    FundCancellationSerializer.validate in *.

Lemma view_subscribe_sufficient (e : env) (fid : string) (w : world)
    (fund : Fund) :
  fid <> EmptyString ->
  funds (db w) !! fid = Some fund ->
  is_active fund = true ->
  may_subscribe (db w) default_user_id fid ->
  minimum_amount fund <= balance_of (db w) default_user_id ->
  balance_create_ok e = true -> txn_create_ok e = true ->
  balance_save_ok e = true ->
  (notification_ok e = true -> notified_save_ok e = true) ->
  exists t w',
    FundSubscribeView.post e fid w
      = (Returned (HTTP_201_CREATED t (minimum_amount fund)
                     (balance_of (db w) default_user_id - minimum_amount fund)
                     (notification_ok e)), w')
    /\ transaction_type t = SUBSCRIPTION
    /\ amount t = float (minimum_amount fund)
    /\ balance_of (db w') default_user_id
       = float (balance_of (db w) default_user_id - minimum_amount fund).
Proof.
  intros Hne Hf Ha Hm Hb Hc Ht Hs Hn.
  unfold_views. unfold_models.
  rewrite bool_decide_eq_false_2 by assumption.
  rewrite Hf. simpl. rewrite Ha. simpl.
  unfold may_subscribe in Hm. unfold balance_of in Hb |- *.
  destruct (user_funds (db w) !! (default_user_id, fid)) as [r|] eqn:Hr; simpl.
  - rewrite Hm. simpl.
    destruct (user_balances (db w) !! default_user_id) as [b|] eqn:Hu; simpl;
      rewrite ?Hc; simpl;
      case_ltb;
      rewrite Ht; simpl; rewrite Hs; simpl;
      destruct (status_save_ok e); simpl; rewrite Hr; simpl; rewrite Hm; simpl;
      destruct (reactivate_save_ok e); simpl;
      destruct (user_fund_save_ok e); simpl;
      destruct (notification_ok e); simpl; rewrite ?Hn by reflexivity; simpl;
      eexists; eexists; (split; [reflexivity|]); simpl;
      rewrite lookup_insert_eq; auto.
  - destruct (user_balances (db w) !! default_user_id) as [b|] eqn:Hu; simpl;
      rewrite ?Hc; simpl;
      case_ltb;
      rewrite Ht; simpl; rewrite Hs; simpl;
      destruct (status_save_ok e); simpl; rewrite Hr; simpl;
      destruct (user_fund_save_ok e); simpl;
      destruct (notification_ok e); simpl; rewrite ?Hn by reflexivity; simpl;
      eexists; eexists; (split; [reflexivity|]); simpl;
      rewrite lookup_insert_eq; auto.
Qed.

Lemma view_subscribe_insufficient (e : env) (fid : string) (w : world)
    (fund : Fund) :
  fid <> EmptyString ->
  funds (db w) !! fid = Some fund ->
  is_active fund = true ->
  may_subscribe (db w) default_user_id fid ->
  balance_of (db w) default_user_id < minimum_amount fund ->
  balance_create_ok e = true ->
  exists w',
    FundSubscribeView.post e fid w
      = (Returned (HTTP_400_BAD_REQUEST
                     (insufficient_balance (minimum_amount fund)
                        (balance_of (db w) default_user_id))), w')
    /\ balance_of (db w') default_user_id = balance_of (db w) default_user_id
    /\ transactions (db w') = transactions (db w)
    /\ user_funds (db w') = user_funds (db w).
Proof.
  intros Hne Hf Ha Hm Hb Hc.
  unfold_views. unfold_models.
  rewrite bool_decide_eq_false_2 by assumption.
  rewrite Hf. simpl. rewrite Ha. simpl.
  unfold may_subscribe in Hm. unfold balance_of in Hb |- *.
  destruct (user_funds (db w) !! (default_user_id, fid)) as [r|] eqn:Hr; simpl;
    rewrite ?Hm; simpl;
    destruct (user_balances (db w) !! default_user_id) as [b|] eqn:Hu; simpl;
    rewrite ?Hc; simpl;
    case_ltb;
    eexists; (split; [reflexivity|]); simpl;
    rewrite ?Hu, ?lookup_insert_eq; auto.
Qed.

(** ** The transactions table *)

Lemma find_put_transaction_eq (t : Transaction) (l : list Transaction) :
  List.find (fun x => bool_decide (transaction_id x = transaction_id t))
            (put_transaction t l) = Some t.
Proof.
  induction l as [|x l IH]; simpl.
  - rewrite bool_decide_eq_true_2; reflexivity.
  - destruct (decide (transaction_id x = transaction_id t)) as [Heq|Hne]; simpl.
    + rewrite bool_decide_eq_true_2; reflexivity.
    + rewrite bool_decide_eq_false_2 by assumption. exact IH.
Qed.

Lemma find_put_transaction_ne (t : Transaction) (l : list Transaction)
    (tid : positive) :
  transaction_id t <> tid ->
  List.find (fun x => bool_decide (transaction_id x = tid))
            (put_transaction t l)
  = List.find (fun x => bool_decide (transaction_id x = tid)) l.
Proof.
  intros Hne. induction l as [|x l IH]; simpl.
  - rewrite bool_decide_eq_false_2 by assumption. reflexivity.
  - destruct (decide (transaction_id x = transaction_id t)) as [Heq|Hne']; simpl.
    + rewrite !bool_decide_eq_false_2 by congruence. reflexivity.
    + destruct (bool_decide (transaction_id x = tid)); [reflexivity|exact IH].
Qed.

Lemma status_in_put_eq (t : Transaction) (s : store) (tid : positive) :
  transaction_id t = tid ->
  status_in (store_put_transaction t s) tid = Some (status t).
Proof.
  intros <-. unfold status_in, find_transaction; simpl.
  rewrite find_put_transaction_eq. reflexivity.
Qed.

Lemma status_in_put_ne (t : Transaction) (s : store) (tid : positive) :
  transaction_id t <> tid ->
  status_in (store_put_transaction t s) tid = status_in s tid.
Proof.
  intros Hne. unfold status_in, find_transaction; simpl.
  rewrite find_put_transaction_ne by assumption. reflexivity.
Qed.

Lemma status_in_put_balance (u : string) (b : UserBalance) (s : store)
    (tid : positive) :
  status_in (store_put_balance u b s) tid = status_in s tid.
Proof. reflexivity. Qed.

Lemma status_in_put_user_fund (u f : string) (r : UserFund) (s : store)
    (tid : positive) :
  status_in (store_put_user_fund u f r s) tid = status_in s tid.
Proof. reflexivity. Qed.

Lemma written_during_eq (w w' : world) (l : list store) :
  journal w' = l ++ journal w ->
  written_during w w' = take (length l) (db w' :: l).
Proof.
  intros H. unfold written_during, history. rewrite H, length_app.
  replace (length l + length (journal w) - length (journal w))%nat
    with (length l) by lia.
  rewrite app_comm_cons.
  rewrite take_app_le by (simpl; lia). reflexivity.
Qed.

Lemma status_in_fresh (w : world) :
  fresh_ids w -> status_in (db w) (next_uuid w) = None.
Proof.
  unfold fresh_ids, status_in, find_transaction.
  induction (transactions (db w)) as [|x l IH]; intros H; simpl.
  - reflexivity.
  - inversion H as [|? ? Hx Hl]; subst.
    rewrite bool_decide_eq_false_2 by lia. apply IH. assumption.
Qed.

(** ** C5: the balance write fails during subscribe *)

Ltac solve_status :=
  repeat first
    [ rewrite status_in_put_eq by reflexivity
    | rewrite status_in_put_balance
    | rewrite status_in_put_user_fund ];
  simpl; try congruence.

Lemma service_subscribe_balance_write_fails (e : env) (uid fid : string)
    (w : world) (fund : Fund) :
  fresh_ids w ->
  funds (db w) !! fid = Some fund ->
  is_active fund = true ->
  minimum_amount fund <= balance_of (db w) uid ->
  balance_create_ok e = true -> txn_create_ok e = true ->
  balance_save_ok e = false ->
  exists w',
    FundService.subscribe_to_fund e uid fid w
      = (Returned (false, transaction_error, None), w')
    /\ status_in (db w') (next_uuid w)
       = Some (if status_save_ok e then FAILED else PENDING)
    /\ Forall (fun s => status_in s (next_uuid w) <> Some COMPLETED)
              (written_during w w')
    /\ user_funds (db w') = user_funds (db w)
    /\ balance_of (db w') uid = balance_of (db w) uid.
Proof.
  intros Hfresh Hf Ha Hb Hc Ht Hs.
  apply status_in_fresh in Hfresh.
  unfold FundService.subscribe_to_fund. unfold_models.
  rewrite Hf. simpl. rewrite Ha. simpl.
  unfold balance_of in Hb |- *.
  destruct (user_balances (db w) !! uid) as [b|] eqn:Hu; simpl;
    rewrite ?Hc; simpl; case_ltb; rewrite Ht; simpl; rewrite Hs; simpl;
    destruct (status_save_ok e); simpl;
    eexists; (split; [reflexivity|]); simpl.
  - rewrite (written_during_eq w _ [_; _]) by reflexivity. simpl.
    rewrite Hu. repeat split; auto; [solve_status|].
    repeat constructor; solve_status.
  - rewrite (written_during_eq w _ [_]) by reflexivity. simpl.
    rewrite Hu. repeat split; auto; [solve_status|].
    repeat constructor; solve_status.
  - rewrite (written_during_eq w _ [_; _; _]) by reflexivity. simpl.
    rewrite lookup_insert_eq. repeat split; auto; [solve_status|].
    repeat constructor; solve_status.
  - rewrite (written_during_eq w _ [_; _]) by reflexivity. simpl.
    rewrite lookup_insert_eq. repeat split; auto; [solve_status|].
    repeat constructor; solve_status.
Qed.

Lemma view_subscribe_balance_write_fails (e : env) (fid : string)
    (w : world) (fund : Fund) :
  fresh_ids w ->
  fid <> EmptyString ->
  funds (db w) !! fid = Some fund ->
  is_active fund = true ->
  may_subscribe (db w) default_user_id fid ->
  minimum_amount fund <= balance_of (db w) default_user_id ->
  balance_create_ok e = true -> txn_create_ok e = true ->
  balance_save_ok e = false ->
  exists w',
    FundSubscribeView.post e fid w
      = (Returned (HTTP_500_INTERNAL_SERVER_ERROR transaction_failed), w')
    /\ status_in (db w') (next_uuid w)
       = Some (if status_save_ok e then FAILED else PENDING)
    /\ Forall (fun s => status_in s (next_uuid w) <> Some COMPLETED)
              (written_during w w')
    /\ user_funds (db w') = user_funds (db w)
    /\ balance_of (db w') default_user_id
       = balance_of (db w) default_user_id.
Proof.
  intros Hfresh Hne Hf Ha Hm Hb Hc Ht Hs.
  apply status_in_fresh in Hfresh.
  unfold_views. unfold_models.
  rewrite bool_decide_eq_false_2 by assumption.
  rewrite Hf. simpl. rewrite Ha. simpl.
  unfold may_subscribe in Hm. unfold balance_of in Hb |- *.
  destruct (user_funds (db w) !! (default_user_id, fid)) as [r|] eqn:Hr; simpl;
    rewrite ?Hm; simpl;
    destruct (user_balances (db w) !! default_user_id) as [b|] eqn:Hu; simpl;
    rewrite ?Hc; simpl; case_ltb; rewrite Ht; simpl; rewrite Hs; simpl;
    destruct (status_save_ok e); simpl;
    eexists; (split; [reflexivity|]); simpl;
    rewrite ?Hu, ?lookup_insert_eq;
    first [ rewrite (written_during_eq w _ [_; _; _]) by reflexivity
          | rewrite (written_during_eq w _ [_; _]) by reflexivity
          | rewrite (written_during_eq w _ [_]) by reflexivity ];
    simpl; (repeat split; auto; [solve_status|]);
    repeat constructor; solve_status.
Qed.

(** ** C10: the index query fails *)

Lemma get_user_transactions_window (e : env) (uid : string) (limit : nat)
    (w : world) :
  Transaction.get_user_transactions e uid limit w
  = (Returned (if query_ok e then ledger_window (db w) uid limit else []), w).
Proof.
  unfold Transaction.get_user_transactions, Transaction.user_index_query,
    try_except, ret, ledger_window.
  destruct (query_ok e); reflexivity.
Qed.

Lemma service_cancel_not_found (e : env) (uid fid : string) (w : world)
    (fund : Fund) (l : list Transaction) :
  funds (db w) !! fid = Some fund ->
  l = (if query_ok e then ledger_window (db w) uid 50 else []) ->
  FundService.find_last_subscription fid l l = None ->
  FundService.cancel_fund_subscription e uid fid w
  = (Returned (false, no_active_subscription (name fund), None), w).
Proof.
  intros Hf Hl Hnone.
  unfold FundService.cancel_fund_subscription, except_DoesNotExist, Fund.get,
    try_except, bind, ret.
  rewrite Hf. simpl. rewrite get_user_transactions_window. simpl.
  rewrite <- Hl, Hnone. reflexivity.
Qed.

(** ** The scan of the ledger *)

#[global] Instance newer_first_transitive
  : Transitive Transaction.newer_first.
Proof. unfold Transaction.newer_first. intros a b c; lia. Qed.

#[global] Instance newer_first_total : Total Transaction.newer_first.
Proof. unfold Transaction.newer_first. intros a b; lia. Qed.

Lemma find_last_subscription_find (fid : string)
    (l rest : list Transaction) :
  FundService.find_last_subscription fid l rest
  = List.find (eligible fid l) rest.
Proof.
  induction rest as [|t rest IH]; simpl; [reflexivity|].
  unfold eligible at 1.
  destruct (FundService.completed_subscription fid t); simpl; [|exact IH].
  destruct (existsb (FundService.cancels fid t) l); simpl;
    [exact IH|reflexivity].
Qed.

Lemma ledger_window_sorted (s : store) (uid : string) (limit : nat) :
  StronglySorted Transaction.newer_first (ledger_window s uid limit).
Proof.
  unfold ledger_window.
  set (m := merge_sort _ _).
  assert (Hm : StronglySorted Transaction.newer_first m)
    by (apply StronglySorted_merge_sort; apply _).
  rewrite <- (take_drop limit m) in Hm.
  apply StronglySorted_app_1_l in Hm. exact Hm.
Qed.

Lemma elem_of_ledger_window (s : store) (uid : string) (limit : nat)
    (t : Transaction) :
  t ∈ ledger_window s uid limit ->
  t ∈ transactions s /\ user_id t = uid.
Proof.
  unfold ledger_window. intros H.
  apply elem_of_take in H as (i & Hi & _).
  apply list_elem_of_lookup_2 in Hi.
  rewrite merge_sort_Permutation in Hi.
  apply list_elem_of_filter in Hi. tauto.
Qed.


(** In a list sorted newest first, the first element that satisfies a
    test is the most recent one that does. *)
Lemma find_most_recent (P : Transaction -> bool) (l : list Transaction)
    (t : Transaction) :
  StronglySorted Transaction.newer_first l ->
  List.find P l = Some t ->
  forall t', t' ∈ l -> P t' = true -> created_at t' <= created_at t.
Proof.
  induction l as [|x l IH]; simpl; intros Hs Hfind t' Hin HP; [discriminate|].
  apply StronglySorted_inv in Hs as [Hs Hall].
  destruct (P x) eqn:Hx.
  - injection Hfind as ->.
    apply elem_of_cons in Hin as [->|Hin]; [lia|].
    rewrite Forall_forall in Hall. apply Hall in Hin.
    exact Hin.
  - apply elem_of_cons in Hin as [->|Hin]; [congruence|].
    eapply IH; eauto.
Qed.

Lemma find_last_subscription_None (fid : string) (l : list Transaction) :
  FundService.find_last_subscription fid l l = None
  <-> forall t, t ∈ l -> eligible fid l t = false.
Proof.
  rewrite find_last_subscription_find. split.
  - intros H t Hin. eapply find_none; eauto. apply list_elem_of_In, Hin.
  - intros H. destruct (List.find (eligible fid l) l) as [t|] eqn:Hf;
      [|reflexivity].
    apply find_some in Hf as [Hin Ht].
    apply list_elem_of_In in Hin. rewrite H in Ht by assumption. discriminate.
Qed.

Lemma find_last_subscription_Some (fid : string) (l : list Transaction)
    (t : Transaction) :
  StronglySorted Transaction.newer_first l ->
  FundService.find_last_subscription fid l l = Some t ->
  t ∈ l /\ eligible fid l t = true
  /\ forall t', t' ∈ l -> eligible fid l t' = true ->
                created_at t' <= created_at t.
Proof.
  rewrite find_last_subscription_find. intros Hs Hf.
  pose proof (find_some _ _ Hf) as [Hin Ht].
  apply list_elem_of_In in Hin.
  repeat split; auto.
  apply find_most_recent with (P := eligible fid l); assumption.
Qed.

Lemma completed_subscription_spec (fid : string) (t : Transaction) :
  FundService.completed_subscription fid t = true
  <-> fund_id t = fid /\ transaction_type t = SUBSCRIPTION
      /\ status t = COMPLETED.
Proof.
  unfold FundService.completed_subscription.
  rewrite !andb_true_iff, !bool_decide_eq_true. tauto.
Qed.

Lemma cancels_spec (fid : string) (t c : Transaction) :
  FundService.cancels fid t c = true
  <-> fund_id c = fid /\ transaction_type c = CANCELLATION
      /\ status c = COMPLETED /\ created_at t < created_at c.
Proof.
  unfold FundService.cancels.
  rewrite !andb_true_iff, !bool_decide_eq_true, Z.ltb_lt. tauto.
Qed.

Lemma eligible_spec (fid : string) (l : list Transaction) (t : Transaction) :
  eligible fid l t = true
  <-> (fund_id t = fid /\ transaction_type t = SUBSCRIPTION
       /\ status t = COMPLETED)
      /\ ~ exists c, c ∈ l /\ fund_id c = fid
                     /\ transaction_type c = CANCELLATION
                     /\ status c = COMPLETED
                     /\ created_at t < created_at c.
Proof.
  unfold eligible.
  rewrite andb_true_iff, negb_true_iff, completed_subscription_spec.
  rewrite <- not_true_iff_false, existsb_exists.
  split; intros [H1 H2]; split; auto; intros (c & Hc & Hx); apply H2;
    exists c.
  - rewrite cancels_spec. rewrite <- list_elem_of_In. tauto.
  - rewrite cancels_spec in Hx. rewrite <- list_elem_of_In in Hc. tauto.
Qed.

(** What [cancel_fund_subscription] does once the scan has stopped at
    [t]. *)
Lemma service_cancel_found (e : env) (uid fid : string) (w : world)
    (fund : Fund) (l : list Transaction) (t : Transaction) :
  funds (db w) !! fid = Some fund ->
  l = (if query_ok e then ledger_window (db w) uid 50 else []) ->
  FundService.find_last_subscription fid l l = Some t ->
  match FundService.cancel_fund_subscription e uid fid w with
  | (Returned (true, m, Some c), w') =>
      m = cancellation_ok (name fund)
      /\ c = set_status
               (pending_transaction w uid fid CANCELLATION (amount t))
               COMPLETED
      /\ transaction_type c = CANCELLATION /\ status c = COMPLETED
      /\ amount c = float (amount t)
      /\ balance_of (db w') uid = float (balance_of (db w) uid + amount t)
  | (Returned (false, m, None), w') =>
      m = cancellation_error
      /\ balance_of (db w') uid = balance_of (db w) uid
  | (Raised ex, w') =>
      ex = StorageError /\ balance_of (db w') uid = balance_of (db w) uid
  | _ => False
  end.
Proof.
  intros Hf Hl Hsome.
  unfold FundService.cancel_fund_subscription, except_DoesNotExist, Fund.get,
    try_except, bind, ret.
  rewrite Hf. simpl. rewrite get_user_transactions_window. simpl.
  rewrite <- Hl, Hsome. unfold_models.
  unfold balance_of, pending_transaction.
  destruct (user_balances (db w) !! uid) as [b|] eqn:Hu; simpl;
    [|destruct (balance_create_ok e); simpl];
    destruct (txn_create_ok e); simpl;
    try destruct (balance_save_ok e); simpl;
    try destruct (status_save_ok e); simpl;
    rewrite ?Hu, ?lookup_insert_eq; auto 10.
Qed.

(** ** C6: cancellation without an open subscription *)




(** Case analysis on every test of an unfolded request in [H]. *)
Ltac invert_run H :=
  repeat (simpl in H;
          match type of H with
          | context [match ?x with _ => _ end] =>
              lazymatch x with
              | context [match _ with _ => _ end] => fail
              | _ => destruct x eqn:?
              end
          end);
  simpl in H; try discriminate H.

(** Equations left by [invert_run]. *)
Ltac clean_run :=
  repeat match goal with
    | H : negb _ = false |- _ => apply negb_false_iff in H
    | H : negb _ = true |- _ => apply negb_true_iff in H
    end;
  simplify_eq; simpl in *.

(** ** C7: the amount refunded *)

Lemma service_cancel_refund (e : env) (uid fid : string) (w w' : world)
    (m : message) (c : option Transaction) :
  FundService.cancel_fund_subscription e uid fid w
    = (Returned (true, m, c), w') ->
  exists t c',
    c = Some c'
    /\ c' = set_status
              (pending_transaction w uid fid CANCELLATION (amount t))
              COMPLETED
    /\ t ∈ ledger_window (db w) uid 50
    /\ eligible fid (ledger_window (db w) uid 50) t = true
    /\ (forall t', t' ∈ ledger_window (db w) uid 50 ->
                   eligible fid (ledger_window (db w) uid 50) t' = true ->
                   created_at t' <= created_at t)
    /\ transaction_type c' = CANCELLATION
    /\ amount c' = float (amount t)
    /\ balance_of (db w') uid = float (balance_of (db w) uid + amount t).
Proof.
  intros Hres.
  destruct (funds (db w) !! fid) as [fund|] eqn:Hf.
  2:{ unfold FundService.cancel_fund_subscription, except_DoesNotExist,
        Fund.get, try_except, bind, ret in Hres.
      rewrite Hf in Hres. discriminate. }
  set (l := if query_ok e then ledger_window (db w) uid 50 else []).
  destruct (FundService.find_last_subscription fid l l) as [t|] eqn:Hfind.
  - pose proof (service_cancel_found e uid fid w fund l t Hf eq_refl Hfind)
      as H.
    rewrite Hres in H. destruct c as [c'|]; [|contradiction].
    destruct H as (_ & Hc' & Hty & _ & Ham & Hbal).
    unfold l in Hfind. destruct (query_ok e); [|discriminate].
    apply find_last_subscription_Some in Hfind as (Hin & Hel & Hrecent);
      [|apply ledger_window_sorted].
    exists t, c'. repeat split; auto.
  - rewrite (service_cancel_not_found e uid fid w fund l Hf eq_refl Hfind)
      in Hres.
    discriminate.
Qed.

Lemma view_cancel_refund (e : env) (fid : string) (w w' : world)
    (t : Transaction) (refund new_balance : Decimal) (sent : bool) :
  FundCancellationView.post e fid w
    = (Returned (HTTP_200_OK t refund new_balance sent), w') ->
  exists sub,
    user_funds (db w) !! (default_user_id, fid) = Some sub
    /\ active sub = true
    /\ refund = invested_amount sub
    /\ transaction_type t = CANCELLATION
    /\ amount t = float refund
    /\ new_balance = balance_of (db w) default_user_id + refund
    /\ balance_of (db w') default_user_id = float new_balance.
Proof.
  intros Hres. unfold_views. unfold_models. unfold balance_of.
  invert_run Hres.
  all: clean_run.
  all: eexists; split; [reflexivity|].
  all: rewrite ?lookup_insert_eq.
  all: repeat split; auto.
Qed.

(** ** The ledger after a new transaction *)

Lemma put_transaction_fresh (t : Transaction) (l : list Transaction) :
  Forall (fun x => transaction_id x <> transaction_id t) l ->
  put_transaction t l = l ++ [t].
Proof.
  induction l as [|x l IH]; intros H; simpl; [reflexivity|].
  inversion H as [|? ? Hx Hl]; subst.
  destruct (decide (transaction_id x = transaction_id t)); [contradiction|].
  rewrite IH by assumption. reflexivity.
Qed.

Lemma put_transaction_last (t t' : Transaction) (l : list Transaction) :
  Forall (fun x => transaction_id x <> transaction_id t) l ->
  transaction_id t' = transaction_id t ->
  put_transaction t' (l ++ [t]) = l ++ [t'].
Proof.
  intros H Heq. induction l as [|x l IH]; simpl.
  - destruct (decide (transaction_id t = transaction_id t')); congruence.
  - inversion H as [|? ? Hx Hl]; subst.
    destruct (decide (transaction_id x = transaction_id t')); [congruence|].
    rewrite IH by assumption. reflexivity.
Qed.

Lemma fresh_ids_ne (w : world) :
  fresh_ids w ->
  Forall (fun x => transaction_id x <> next_uuid w) (transactions (db w)).
Proof.
  unfold fresh_ids. intros H. eapply Forall_impl; [exact H|].
  intros x Hx. simpl in Hx. lia.
Qed.

(** The most recent transaction of the user heads the window. *)
Lemma ledger_window_head (s : store) (uid : string) (limit : nat)
    (l : list Transaction) (t : Transaction) :
  transactions s = l ++ [t] ->
  user_id t = uid ->
  Forall (fun x => created_at x < created_at t) l ->
  exists rest,
    ledger_window s uid (S limit) = t :: rest
    /\ Forall (fun x => created_at x < created_at t) rest.
Proof.
  intros Hs Hu Hold. unfold ledger_window. rewrite Hs.
  set (m := merge_sort _ _).
  assert (Hsorted : StronglySorted Transaction.newer_first m)
    by (apply StronglySorted_merge_sort; apply _).
  assert (Hperm : m ≡ₚ t :: filter (fun x => user_id x = uid) l).
  { unfold m. rewrite merge_sort_Permutation, filter_app.
    rewrite filter_cons_True by exact Hu. rewrite filter_nil.
    rewrite <- Permutation_cons_append. reflexivity. }
  assert (Hothers : forall x, x ∈ m -> x = t \/ created_at x < created_at t).
  { intros x Hx. rewrite Hperm in Hx.
    apply elem_of_cons in Hx as [->|Hx]; [left; reflexivity|right].
    apply list_elem_of_filter in Hx as [_ Hx].
    rewrite Forall_forall in Hold. apply Hold. exact Hx. }
  destruct m as [|h m'] eqn:Hm.
  { apply Permutation_nil_cons in Hperm. contradiction. }
  assert (Hh : h = t).
  { destruct (Hothers h) as [?|Hlt]; [left|assumption|].
    assert (Ht : t ∈ h :: m') by (rewrite Hperm; left).
    apply elem_of_cons in Ht as [->|Ht]; [reflexivity|].
    apply StronglySorted_inv in Hsorted as [_ Hall].
    rewrite Forall_forall in Hall. apply Hall in Ht.
    unfold Transaction.newer_first in Ht. lia. }
  subst h. exists (take limit m'). split; [reflexivity|].
  apply Forall_forall. intros x Hx.
  assert (Hx' : x ∈ m').
  { apply elem_of_take in Hx as (i & Hi & _).
    eapply list_elem_of_lookup_2; eauto. }
  assert (Hperm' : m' ≡ₚ filter (fun x => user_id x = uid) l)
    by (eapply Permutation_cons_inv; exact Hperm).
  rewrite Hperm' in Hx'.
  apply list_elem_of_filter in Hx' as [_ Hx'].
  rewrite Forall_forall in Hold. apply Hold. exact Hx'.
Qed.

(** A completed subscription that heads the window and is more recent
    than the rest of it is where the scan stops. *)
Lemma find_last_subscription_head (fid : string) (t : Transaction)
    (rest : list Transaction) :
  FundService.completed_subscription fid t = true ->
  Forall (fun x => created_at x < created_at t) rest ->
  FundService.find_last_subscription fid (t :: rest) (t :: rest) = Some t.
Proof.
  intros Hsub Hold. simpl. rewrite Hsub.
  assert (Hno : existsb (FundService.cancels fid t) (t :: rest) = false).
  { apply not_true_iff_false. rewrite existsb_exists.
    intros (c & Hin & Hc). apply cancels_spec in Hc as (_ & _ & _ & Hlt).
    destruct Hin as [->|Hin]; [lia|].
    rewrite Forall_forall in Hold. apply list_elem_of_In in Hin.
    apply Hold in Hin. lia. }
  simpl in Hno. rewrite Hno. reflexivity.
Qed.

(** ** C2: subscribe, then cancel *)

Lemma service_subscribe_success (e : env) (uid fid : string) (w w' : world)
    (m : message) (t : option Transaction) :
  FundService.subscribe_to_fund e uid fid w = (Returned (true, m, t), w') ->
  exists fund,
    let new := pending_transaction w uid fid SUBSCRIPTION
                 (minimum_amount fund) in
    funds (db w) !! fid = Some fund
    /\ is_active fund = true
    /\ minimum_amount fund <= balance_of (db w) uid
    /\ m = subscription_ok (name fund)
    /\ t = Some (set_status new COMPLETED)
    /\ balance_of (db w') uid
       = float (balance_of (db w) uid - minimum_amount fund)
    /\ funds (db w') = funds (db w)
    /\ user_funds (db w') = user_funds (db w)
    /\ transactions (db w')
       = (if status_save_ok e
          then put_transaction (set_status new COMPLETED)
                 (put_transaction new (transactions (db w)))
          else put_transaction new (transactions (db w)))
    /\ clock w' = clock w + 1
    /\ next_uuid w' = Pos.succ (next_uuid w).
Proof.
  intros Hres. unfold FundService.subscribe_to_fund in Hres.
  unfold_models. unfold balance_of, pending_transaction.
  invert_run Hres.
  all: clean_run.
  all: eexists; split; [reflexivity|].
  all: rewrite ?lookup_insert_eq.
  all: repeat match goal with
         | H : (_ <? _) = false |- _ => apply Z.ltb_ge in H
         end.
  all: repeat split; auto.
Qed.

(** The cancellation that follows a new completed subscription refunds
    the amount of that subscription. *)
Lemma service_cancel_newest (e : env) (uid fid : string) (w w' : world)
    (l : list Transaction) (x : Transaction) (m : message)
    (t : option Transaction) :
  transactions (db w) = l ++ [x] ->
  user_id x = uid ->
  FundService.completed_subscription fid x = true ->
  Forall (fun y => created_at y < created_at x) l ->
  FundService.cancel_fund_subscription e uid fid w
    = (Returned (true, m, t), w') ->
  balance_of (db w') uid = float (balance_of (db w) uid + amount x).
Proof.
  intros Htx Hu Hsub Hold Hcan.
  destruct (ledger_window_head (db w) uid 49 l x Htx Hu Hold)
    as (rest & Hwin & Hrest).
  assert (Hfind : FundService.find_last_subscription fid
                    (ledger_window (db w) uid 50)
                    (ledger_window (db w) uid 50) = Some x).
  { rewrite Hwin. apply find_last_subscription_head; assumption. }
  destruct (funds (db w) !! fid) as [fund|] eqn:Hf.
  2:{ unfold FundService.cancel_fund_subscription, except_DoesNotExist,
        Fund.get, try_except, bind, ret in Hcan.
      rewrite Hf in Hcan. discriminate. }
  destruct (query_ok e) eqn:Hq.
  - pose proof (service_cancel_found e uid fid w fund _ x Hf eq_refl) as H.
    rewrite Hq in H. specialize (H Hfind). rewrite Hcan in H.
    destruct t as [c|]; [|contradiction].
    destruct H as (_ & _ & _ & _ & _ & Hbal). exact Hbal.
  - rewrite (service_cancel_not_found e uid fid w fund [] Hf) in Hcan;
      [discriminate| |reflexivity].
    rewrite Hq. reflexivity.
Qed.

Lemma service_subscribe_then_cancel (e1 e2 : env) (uid fid : string)
    (w w1 w2 : world) (m1 m2 : message) (t1 t2 : option Transaction) :
  well_formed w ->
  nonneg_amounts (db w) ->
  balance_of (db w) uid < float_limit ->
  FundService.subscribe_to_fund e1 uid fid w
    = (Returned (true, m1, t1), w1) ->
  status_save_ok e1 = true ->
  FundService.cancel_fund_subscription e2 uid fid w1
    = (Returned (true, m2, t2), w2) ->
  balance_of (db w2) uid = balance_of (db w) uid.
Proof.
  intros [Hfresh Hclock] Hnn Hlim Hsub Hst Hcan.
  apply service_subscribe_success in Hsub
    as (fund & Hf & Ha & Hb & _ & _ & Hbal & Hfunds & _ & Htx & _ & _).
  assert (Hmin : 0 <= minimum_amount fund)
    by (destruct Hnn as (Hnn & _); eapply Hnn; exact Hf).
  rewrite Hst in Htx.
  set (new := pending_transaction w uid fid SUBSCRIPTION
                (minimum_amount fund)) in *.
  assert (Hne : Forall (fun x => transaction_id x <> transaction_id new)
                  (transactions (db w))) by (apply fresh_ids_ne, Hfresh).
  rewrite (put_transaction_fresh new) in Htx by exact Hne.
  rewrite (put_transaction_last new) in Htx by (auto; reflexivity).
  rewrite (service_cancel_newest e2 uid fid w1 w2 _ _ m2 t2 Htx eq_refl)
    ; [| |exact Hclock|exact Hcan].
  - rewrite Hbal. simpl.
    rewrite (float_in_range (minimum_amount fund)) by lia.
    rewrite (float_in_range (_ - _)) by lia.
    rewrite <- (float_in_range (balance_of (db w) uid)) at 2 by lia.
    f_equal. lia.
  - apply completed_subscription_spec. auto.
Qed.

Lemma view_subscribe_created (e : env) (fid : string) (w w' : world)
    (t : Transaction) (charged new_balance : Decimal) (sent : bool) :
  FundSubscribeView.post e fid w
    = (Returned (HTTP_201_CREATED t charged new_balance sent), w') ->
  exists fund,
    funds (db w) !! fid = Some fund
    /\ fid <> EmptyString
    /\ is_active fund = true
    /\ may_subscribe (db w) default_user_id fid
    /\ minimum_amount fund <= balance_of (db w) default_user_id
    /\ charged = minimum_amount fund
    /\ transaction_type t = SUBSCRIPTION
    /\ amount t = float charged
    /\ status t = COMPLETED
    /\ new_balance = balance_of (db w) default_user_id - charged
    /\ balance_of (db w') default_user_id = float new_balance
    /\ funds (db w') = funds (db w)
    /\ (user_fund_save_ok e = true ->
        exists r, user_funds (db w') !! (default_user_id, fid) = Some r
                  /\ active r = true
                  /\ subscription_amount r = float charged
                  /\ invested_amount r = float charged).
Proof.
  intros Hres. unfold_views. unfold_models. unfold balance_of, may_subscribe.
  invert_run Hres.
  all: clean_run.
  all: eexists; split; [reflexivity|].
  all: rewrite ?lookup_insert_eq.
  all: repeat match goal with
         | H : (_ <? _) = false |- _ => apply Z.ltb_ge in H
         | H : user_funds _ !! _ = _ |- _ => rewrite H
         | H : bool_decide _ = false |- _ => apply bool_decide_eq_false in H
         end.
  all: repeat split; auto.
  all: try discriminate.
  all: try congruence.
  all: intros _; eexists; rewrite ?lookup_insert_eq;
    (split; [reflexivity|]); simpl; auto.
  all: congruence.
Qed.

Lemma view_subscribe_then_cancel (e1 e2 : env) (fid : string)
    (w w1 w2 : world) (t1 t2 : Transaction)
    (charged refund nb1 nb2 : Decimal) (sent1 sent2 : bool) :
  nonneg_amounts (db w) ->
  balance_of (db w) default_user_id < float_limit ->
  FundSubscribeView.post e1 fid w
    = (Returned (HTTP_201_CREATED t1 charged nb1 sent1), w1) ->
  user_fund_save_ok e1 = true ->
  FundCancellationView.post e2 fid w1
    = (Returned (HTTP_200_OK t2 refund nb2 sent2), w2) ->
  refund = charged
  /\ balance_of (db w2) default_user_id = balance_of (db w) default_user_id.
Proof.
  intros Hnn Hlim Hsub Hsave Hcan.
  apply view_subscribe_created in Hsub
    as (fund & Hf & _ & _ & _ & Hb & Hch & _ & _ & _ & Hnb & Hbal & _ & Hreg).
  assert (Hmin : 0 <= minimum_amount fund)
    by (destruct Hnn as (Hnn & _); eapply Hnn; exact Hf).
  destruct (Hreg Hsave) as (r & Hr & _ & _ & Hinv).
  apply view_cancel_refund in Hcan
    as (sub & Hsub & _ & Href & _ & _ & Hnb2 & Hbal2).
  rewrite Hr in Hsub. injection Hsub as <-.
  subst charged nb1 nb2.
  rewrite (float_in_range (minimum_amount fund)) in Hinv by lia.
  rewrite float_in_range in Hbal by lia.
  split; [congruence|].
  rewrite Hbal2, Hbal, Href, Hinv.
  rewrite float_in_range by lia. lia.
Qed.

(** The ledger after a subscription through the view. *)
Lemma view_subscribe_ledger (e : env) (fid : string) (w w' : world)
    (t : Transaction) (charged new_balance : Decimal) (sent : bool) :
  fresh_ids w ->
  FundSubscribeView.post e fid w
    = (Returned (HTTP_201_CREATED t charged new_balance sent), w') ->
  status_save_ok e = true ->
  exists x,
    transactions (db w') = transactions (db w) ++ [x]
    /\ user_id x = default_user_id /\ fund_id x = fid
    /\ transaction_type x = SUBSCRIPTION /\ status x = COMPLETED
    /\ amount x = float charged /\ created_at x = clock w.
Proof.
  intros Hfresh Hres Hst. apply fresh_ids_ne in Hfresh.
  unfold_views. unfold_models. rewrite Hst in Hres.
  invert_run Hres.
  all: clean_run.
  all: match goal with
       | Hf : Forall _ ?l |- context [put_transaction ?t ?l] =>
           rewrite (put_transaction_fresh t l Hf)
       end.
  all: repeat match goal with
         | Hf : Forall _ ?l |- context [put_transaction ?t' (?l ++ [?t])] =>
             rewrite (put_transaction_last t t' l Hf eq_refl)
         end.
  all: eexists; (split; [reflexivity|]); simpl; auto 10.
Qed.

Lemma view_subscribe_then_service_cancel (e1 e2 : env) (fid : string)
    (w w1 w2 : world) (t1 : Transaction) (charged nb1 : Decimal)
    (sent1 : bool) (m2 : message) (t2 : option Transaction) :
  well_formed w ->
  nonneg_amounts (db w) ->
  balance_of (db w) default_user_id < float_limit ->
  FundSubscribeView.post e1 fid w
    = (Returned (HTTP_201_CREATED t1 charged nb1 sent1), w1) ->
  status_save_ok e1 = true ->
  FundService.cancel_fund_subscription e2 default_user_id fid w1
    = (Returned (true, m2, t2), w2) ->
  balance_of (db w2) default_user_id = balance_of (db w) default_user_id.
Proof.
  intros [Hfresh Hclock] Hnn Hlim Hsub Hst Hcan.
  destruct (view_subscribe_ledger e1 fid w w1 t1 charged nb1 sent1
              Hfresh Hsub Hst)
    as (x & Htx & Hu & Hfid & Hty & Hstx & Ham & Hat).
  apply view_subscribe_created in Hsub
    as (fund & Hf & _ & _ & _ & Hb & Hch & _ & _ & _ & Hnb & Hbal & _ & _).
  assert (Hmin : 0 <= minimum_amount fund)
    by (destruct Hnn as (Hnn & _); eapply Hnn; exact Hf).
  subst charged nb1.
  rewrite (float_in_range (minimum_amount fund)) in Ham by lia.
  rewrite float_in_range in Hbal by lia.
  rewrite (service_cancel_newest e2 default_user_id fid w1 w2 _ x m2 t2
             Htx Hu); [| | |exact Hcan].
  - rewrite Hbal, Ham.
    rewrite <- (float_in_range (balance_of (db w) default_user_id)) at 2
      by lia.
    f_equal. lia.
  - apply completed_subscription_spec. auto.
  - rewrite Hat. exact Hclock.
Qed.

(** ** C3: amounts stay non-negative *)

Lemma Forall_put_transaction (P : Transaction -> Prop) (t : Transaction)
    (l : list Transaction) :
  P t -> Forall P l -> Forall P (put_transaction t l).
Proof.
  intros Ht. induction l as [|x l IH]; intros H; simpl.
  - constructor; [exact Ht|constructor].
  - inversion H as [|? ? Hx Hl]; subst.
    destruct (decide (transaction_id x = transaction_id t));
      constructor; auto.
Qed.

Lemma nonneg_put_balance (s : store) (u : string) (b : UserBalance) :
  nonneg_amounts s -> 0 <= available_balance b ->
  nonneg_amounts (store_put_balance u b s).
Proof.
  intros (Hf & Hb & Ht & Hu) Hnew. repeat split; simpl; auto.
  intros uid b'. rewrite lookup_insert.
  destruct (decide (u = uid)); [intros [= <-]; exact Hnew|apply Hb].
Qed.

Lemma nonneg_put_transaction (s : store) (t : Transaction) :
  nonneg_amounts s -> 0 <= amount t ->
  nonneg_amounts (store_put_transaction t s).
Proof.
  intros (Hf & Hb & Ht & Hu) Hnew. repeat split; simpl; auto.
  apply Forall_put_transaction; assumption.
Qed.

Lemma nonneg_put_user_fund (s : store) (u f : string) (r : UserFund) :
  nonneg_amounts s -> 0 <= invested_amount r ->
  nonneg_amounts (store_put_user_fund u f r s).
Proof.
  intros (Hf & Hb & Ht & Hu) Hnew. repeat split; simpl; auto.
  intros k r'. rewrite lookup_insert.
  destruct (decide ((u, f) = k)); [intros [= <-]; exact Hnew|apply Hu].
Qed.

Lemma nonneg_window_amount (s : store) (fid uid : string) (n : nat)
    (t : Transaction) :
  nonneg_amounts s ->
  FundService.find_last_subscription fid (ledger_window s uid n)
    (ledger_window s uid n) = Some t ->
  0 <= amount t.
Proof.
  intros (_ & _ & Ht & _) Hfind.
  rewrite find_last_subscription_find in Hfind.
  apply find_some in Hfind as [Hin _]. apply list_elem_of_In in Hin.
  apply elem_of_ledger_window in Hin as [Hin _].
  rewrite Forall_forall in Ht. apply Ht. exact Hin.
Qed.

(** Case analysis on every test of an unfolded request in the goal. *)
Ltac run_goal :=
  repeat (simpl;
          match goal with
          | |- context [match ?x with _ => _ end] =>
              lazymatch x with
              | context [match _ with _ => _ end] => fail
              | _ => destruct x eqn:?
              end
          end);
  simpl.

Ltac nonneg_facts :=
  repeat match goal with
    | H : (_ <? _) = false |- _ => apply Z.ltb_ge in H
    | H : (_ <? _) = true |- _ => apply Z.ltb_lt in H
    | Hn : nonneg_amounts ?s, H : funds ?s !! _ = Some ?f |- _ =>
        lazymatch goal with
        | _ : 0 <= minimum_amount f |- _ => fail
        | _ => assert (0 <= minimum_amount f)
                 by (destruct Hn as (Hn & _); eapply Hn; exact H)
        end
    | Hn : nonneg_amounts ?s, H : user_balances ?s !! _ = Some ?b |- _ =>
        lazymatch goal with
        | _ : 0 <= available_balance b |- _ => fail
        | _ => assert (0 <= available_balance b)
                 by (destruct Hn as (_ & Hn & _); eapply Hn; exact H)
        end
    | Hn : nonneg_amounts ?s, H : user_funds ?s !! _ = Some ?r |- _ =>
        lazymatch goal with
        | _ : 0 <= invested_amount r |- _ => fail
        | _ => assert (0 <= invested_amount r)
                 by (destruct Hn as (_ & _ & _ & Hn); eapply Hn; exact H)
        end
    end.

Ltac nonneg_solve :=
  repeat first
    [ assumption
    | apply nonneg_put_balance
    | apply nonneg_put_transaction
    | apply nonneg_put_user_fund
    | progress simpl
    | apply float_nonneg
    | lia
    | unfold UserBalance.initial_balance in *; lia ].

Lemma service_subscribe_nonneg (e : env) (uid fid : string) (w : world) :
  nonneg_amounts (db w) ->
  nonneg_amounts (db (snd (FundService.subscribe_to_fund e uid fid w))).
Proof.
  intros Hn. unfold FundService.subscribe_to_fund. unfold_models.
  run_goal; nonneg_facts; nonneg_solve.
Qed.

Lemma service_cancel_nonneg (e : env) (uid fid : string) (w : world) :
  nonneg_amounts (db w) ->
  nonneg_amounts (db (snd (FundService.cancel_fund_subscription e uid fid w))).
Proof.
  intros Hn.
  unfold FundService.cancel_fund_subscription, except_DoesNotExist, Fund.get,
    try_except at 1, bind at 1 2 3, ret at 1 2.
  destruct (funds (db w) !! fid) as [fund|] eqn:Hf; simpl; [|exact Hn].
  unfold bind at 1. rewrite get_user_transactions_window.
  destruct (query_ok e); [|exact Hn].
  destruct (FundService.find_last_subscription _ _ _) as [t|] eqn:Hfind;
    [|exact Hn].
  apply nonneg_window_amount in Hfind; [|exact Hn].
  unfold_models.
  run_goal; nonneg_facts; nonneg_solve.
Qed.

Lemma view_subscribe_nonneg (e : env) (fid : string) (w : world) :
  nonneg_amounts (db w) ->
  nonneg_amounts (db (snd (FundSubscribeView.post e fid w))).
Proof.
  intros Hn. unfold_views. unfold_models.
  run_goal; clean_run; nonneg_facts; nonneg_solve.
Qed.

Lemma view_cancel_nonneg (e : env) (fid : string) (w : world) :
  nonneg_amounts (db w) ->
  nonneg_amounts (db (snd (FundCancellationView.post e fid w))).
Proof.
  intros Hn. unfold_views. unfold_models.
  run_goal; clean_run; nonneg_facts; nonneg_solve.
Qed.

Lemma handle_nonneg (r : request) (w : world) :
  nonneg_amounts (db w) -> nonneg_amounts (db (handle r w)).
Proof.
  destruct r; simpl;
    auto using service_subscribe_nonneg, service_cancel_nonneg,
      view_subscribe_nonneg, view_cancel_nonneg.
Qed.

Lemma run_nonneg (rs : list request) (w : world) :
  nonneg_amounts (db w) -> nonneg_amounts (db (run rs w)).
Proof.
  revert w. induction rs as [|r rs IH]; intros w Hn; simpl; [exact Hn|].
  apply IH, handle_nonneg, Hn.
Qed.

Lemma nonneg_balance_of (s : store) (uid : string) :
  nonneg_amounts s -> 0 <= balance_of s uid.
Proof.
  intros (_ & Hb & _). unfold balance_of.
  destruct (user_balances s !! uid) as [b|] eqn:Hu; [eapply Hb; eauto|].
  unfold UserBalance.initial_balance. lia.
Qed.

(** ** C8: the life of a stored status *)

Lemma lawful_write_balance (u : string) (b : UserBalance) (s : store) :
  lawful_write s (store_put_balance u b s).
Proof. intros tid. left. reflexivity. Qed.

Lemma lawful_write_user_fund (u f : string) (r : UserFund) (s : store) :
  lawful_write s (store_put_user_fund u f r s).
Proof. intros tid. left. reflexivity. Qed.

Lemma lawful_write_transaction (t : Transaction) (s : store) :
  status_move (status_in s (transaction_id t)) (Some (status t)) ->
  lawful_write s (store_put_transaction t s).
Proof.
  intros H tid. destruct (decide (transaction_id t = tid)) as [<-|Hne].
  - rewrite status_in_put_eq by reflexivity. exact H.
  - rewrite status_in_put_ne by assumption. left. reflexivity.
Qed.

Ltac solve_move :=
  solve_status;
  unfold status_move;
  repeat match goal with
    | H : status_in _ _ = _ |- _ => rewrite H
    end;
  first [ left; reflexivity
        | right; left; split; reflexivity
        | right; right; split; [reflexivity|left; reflexivity]
        | right; right; split; [reflexivity|right; reflexivity] ].

Ltac solve_lawful :=
  simpl;
  repeat (apply lawful_cons;
          [ first [ apply lawful_write_balance
                  | apply lawful_write_user_fund
                  | apply lawful_write_transaction; solve_move ]
          | ]);
  try assumption.

Ltac solve_fresh :=
  simpl;
  repeat (apply Forall_put_transaction; [simpl; lia|]);
  first [ assumption
        | match goal with
          | H : Forall _ ?l |- Forall _ ?l =>
              eapply Forall_impl; [exact H|]; intros ? ?; simpl in *; lia
          end ].

Lemma service_subscribe_lawful (e : env) (uid fid : string) (w : world) :
  fresh_ids w -> lawful_history (history w) ->
  fresh_ids (snd (FundService.subscribe_to_fund e uid fid w))
  /\ lawful_history
       (history (snd (FundService.subscribe_to_fund e uid fid w))).
Proof.
  intros Hfresh Hlaw. pose proof (status_in_fresh w Hfresh) as Hnew.
  unfold fresh_ids, history in *.
  unfold FundService.subscribe_to_fund. unfold_models.
  run_goal; (split; [solve_fresh|solve_lawful]).
Qed.

Lemma service_cancel_lawful (e : env) (uid fid : string) (w : world) :
  fresh_ids w -> lawful_history (history w) ->
  fresh_ids (snd (FundService.cancel_fund_subscription e uid fid w))
  /\ lawful_history
       (history (snd (FundService.cancel_fund_subscription e uid fid w))).
Proof.
  intros Hfresh Hlaw. pose proof (status_in_fresh w Hfresh) as Hnew.
  destruct (FundService.cancel_fund_subscription e uid fid w) as [res w']
    eqn:Hres.
  unfold FundService.cancel_fund_subscription, except_DoesNotExist, Fund.get,
    try_except at 1, bind at 1 2 3, ret at 1 2 in Hres.
  destruct (funds (db w) !! fid) as [fund|] eqn:Hf; simpl in Hres;
    [|injection Hres as <- <-; auto].
  unfold bind at 1 in Hres. rewrite get_user_transactions_window in Hres.
  destruct (FundService.find_last_subscription _ _ _) as [t|] eqn:Hfind;
    [|injection Hres as <- <-; auto].
  clear Hfind.
  unfold fresh_ids, history in *. unfold_models.
  invert_run Hres; clean_run; (split; [solve_fresh|solve_lawful]).
Qed.

Lemma view_subscribe_lawful (e : env) (fid : string) (w : world) :
  fresh_ids w -> lawful_history (history w) ->
  fresh_ids (snd (FundSubscribeView.post e fid w))
  /\ lawful_history (history (snd (FundSubscribeView.post e fid w))).
Proof.
  intros Hfresh Hlaw. pose proof (status_in_fresh w Hfresh) as Hnew.
  unfold fresh_ids, history in *.
  unfold_views. unfold_models.
  run_goal; clean_run; (split; [solve_fresh|solve_lawful]).
Qed.

Lemma view_cancel_lawful (e : env) (fid : string) (w : world) :
  fresh_ids w -> lawful_history (history w) ->
  fresh_ids (snd (FundCancellationView.post e fid w))
  /\ lawful_history (history (snd (FundCancellationView.post e fid w))).
Proof.
  intros Hfresh Hlaw. pose proof (status_in_fresh w Hfresh) as Hnew.
  unfold fresh_ids, history in *.
  unfold_views. unfold_models.
  run_goal; clean_run; (split; [solve_fresh|solve_lawful]).
Qed.

Lemma handle_lawful (r : request) (w : world) :
  fresh_ids w -> lawful_history (history w) ->
  fresh_ids (handle r w) /\ lawful_history (history (handle r w)).
Proof.
  destruct r; simpl;
    auto using service_subscribe_lawful, service_cancel_lawful,
      view_subscribe_lawful, view_cancel_lawful.
Qed.

Lemma run_lawful (rs : list request) (w : world) :
  fresh_ids w -> lawful_history (history w) ->
  fresh_ids (run rs w) /\ lawful_history (history (run rs w)).
Proof.
  revert w. induction rs as [|r rs IH]; intros w Hf Hl; simpl; [auto|].
  destruct (handle_lawful r w Hf Hl) as [Hf' Hl']. apply IH; assumption.
Qed.

(** A status that is not PENDING stays as it is through lawful writes. *)
Lemma lawful_write_terminal (older newer : store) (tid : positive)
    (st : Status) :
  lawful_write older newer ->
  status_in older tid = Some st -> st <> PENDING ->
  status_in newer tid = Some st.
Proof.
  intros H Hst Hne. destruct (H tid) as [Heq|[[Hnone _]|[Hp _]]];
    congruence.
Qed.

Lemma lawful_history_terminal (h : list store) (i j : nat)
    (older newer : store) (tid : positive) (st : Status) :
  lawful_history h ->
  (i <= j)%nat -> h !! j = Some older -> h !! i = Some newer ->
  status_in older tid = Some st -> st <> PENDING ->
  status_in newer tid = Some st.
Proof.
  intros Hlaw. revert i j newer.
  induction Hlaw as [|s|nw od h Hw Hh IH];
    intros i j newer Hij Hj Hi Hst Hne.
  - rewrite lookup_nil in Hj. discriminate.
  - destruct j as [|j]; [|rewrite lookup_cons, lookup_nil in Hj; discriminate].
    assert (i = 0)%nat as -> by lia. simpl in *. congruence.
  - destruct i as [|i].
    + simpl in Hi. injection Hi as <-.
      destruct j as [|j]; [simpl in Hj; congruence|].
      simpl in Hj.
      eapply lawful_write_terminal; [exact Hw| |exact Hne].
      apply (IH 0%nat j od); [lia|exact Hj|reflexivity|exact Hst|exact Hne].
    + destruct j as [|j]; [lia|]. simpl in Hi, Hj.
      apply (IH i j newer); auto. lia.
Qed.

(** ** C4: a second subscription *)

Lemma view_subscribe_refused (e : env) (fid : string) (w : world)
    (fund : Fund) (r : UserFund) :
  fid <> EmptyString ->
  funds (db w) !! fid = Some fund ->
  is_active fund = true ->
  user_funds (db w) !! (default_user_id, fid) = Some r ->
  active r = true ->
  FundSubscribeView.post e fid w
  = (Returned (HTTP_400_BAD_REQUEST (subscription_refused already_active)), w).
Proof.
  intros Hne Hf Ha Hr Hact. unfold_views. unfold_models.
  rewrite bool_decide_eq_false_2 by assumption.
  rewrite Hf. simpl. rewrite Ha. simpl. rewrite Hr. simpl. rewrite Hact.
  reflexivity.
Qed.

Lemma view_subscribe_twice (e1 e2 : env) (fid : string) (w w1 : world)
    (t : Transaction) (charged nb : Decimal) (sent : bool) :
  FundSubscribeView.post e1 fid w
    = (Returned (HTTP_201_CREATED t charged nb sent), w1) ->
  user_fund_save_ok e1 = true ->
  FundSubscribeView.post e2 fid w1
  = (Returned (HTTP_400_BAD_REQUEST (subscription_refused already_active)),
     w1).
Proof.
  intros Hsub Hsave.
  apply view_subscribe_created in Hsub
    as (fund & Hf & Hne & Ha & _ & _ & _ & _ & _ & _ & _ & _ & Hfunds & Hreg).
  destruct (Hreg Hsave) as (r & Hr & Hact & _).
  eapply view_subscribe_refused; eauto. rewrite Hfunds. exact Hf.
Qed.

(** [subscribe_to_fund] never reads the subscriptions table: a second
    call debits again. *)
Lemma service_subscribe_twice (e1 e2 : env) (uid fid : string)
    (w w1 : world) (m1 : message) (t1 : option Transaction) (fund : Fund) :
  FundService.subscribe_to_fund e1 uid fid w
    = (Returned (true, m1, t1), w1) ->
  funds (db w) !! fid = Some fund ->
  minimum_amount fund <= balance_of (db w1) uid ->
  balance_create_ok e2 = true -> txn_create_ok e2 = true ->
  balance_save_ok e2 = true ->
  exists t2 w2,
    FundService.subscribe_to_fund e2 uid fid w1
      = (Returned (true, subscription_ok (name fund), Some t2), w2)
    /\ balance_of (db w2) uid
       = float (float (balance_of (db w) uid - minimum_amount fund)
                - minimum_amount fund).
Proof.
  intros Hsub Hf Hb Hc Ht Hs.
  apply service_subscribe_success in Hsub
    as (fund' & Hf' & Ha & _ & _ & _ & Hbal & Hfunds & _).
  rewrite Hf in Hf'. injection Hf' as <-.
  assert (Hf1 : funds (db w1) !! fid = Some fund) by (rewrite Hfunds; exact Hf).
  destruct (service_subscribe_sufficient e2 uid fid w1 fund Hf1 Ha Hb Hc Ht Hs)
    as (t2 & w2 & Hres & _ & _ & Hbal2).
  exists t2, w2. split; [exact Hres|]. rewrite Hbal2, Hbal. reflexivity.
Qed.

(** ** C6, continued: a second cancellation *)





(** ** The history of writes *)

Lemma lawful_history_adjacent (h : list store) (i : nat)
    (older newer : store) :
  lawful_history h ->
  h !! S i = Some older -> h !! i = Some newer ->
  lawful_write older newer.
Proof.
  intros Hlaw. revert i.
  induction Hlaw as [|s|nw od h Hw Hh IH]; intros i Hj Hi.
  - rewrite lookup_nil in Hj. discriminate.
  - rewrite lookup_cons, lookup_nil in Hj. discriminate.
  - destruct i as [|i]; simpl in Hi, Hj.
    + simplify_eq. exact Hw.
    + apply (IH i); assumption.
Qed.

(** ** Cancellations that are accepted *)

(** What [FundCancellationView.post] does for an active subscription
    when the writes of the ledger and of the balance go through. *)
Lemma view_cancel_accepted (e : env) (fid : string) (w : world)
    (fund : Fund) (r : UserFund) :
  fid <> EmptyString ->
  funds (db w) !! fid = Some fund ->
  user_funds (db w) !! (default_user_id, fid) = Some r ->
  active r = true ->
  balance_create_ok e = true -> txn_create_ok e = true ->
  balance_save_ok e = true ->
  (notification_ok e = true -> notified_save_ok e = true) ->
  exists t w',
    FundCancellationView.post e fid w
      = (Returned (HTTP_200_OK t (invested_amount r)
                     (balance_of (db w) default_user_id + invested_amount r)
                     (notification_ok e)), w')
    /\ transaction_type t = CANCELLATION
    /\ amount t = float (invested_amount r)
    /\ balance_of (db w') default_user_id
       = float (balance_of (db w) default_user_id + invested_amount r)
    /\ funds (db w') = funds (db w)
    /\ (cancel_save_ok e = false -> user_funds (db w') = user_funds (db w))
    /\ (cancel_save_ok e = true ->
        exists r', user_funds (db w') !! (default_user_id, fid) = Some r'
                   /\ active r' = false).
Proof.
  intros Hne Hf Hr Hact Hc Ht Hs Hn.
  unfold_views. unfold_models.
  rewrite bool_decide_eq_false_2 by assumption.
  rewrite Hf. simpl. rewrite Hr. simpl. rewrite Hact. simpl.
  unfold balance_of.
  destruct (user_balances (db w) !! default_user_id) as [b|] eqn:Hu; simpl;
    rewrite ?Hc; simpl; rewrite Ht; simpl; rewrite Hs; simpl;
    destruct (status_save_ok e); simpl;
    destruct (cancel_save_ok e); simpl;
    destruct (notification_ok e); simpl; rewrite ?Hn by reflexivity; simpl;
    eexists; eexists; (split; [reflexivity|]); simpl;
    rewrite ?lookup_insert_eq;
    (repeat split; auto; try discriminate);
    intros _; eexists; rewrite ?lookup_insert_eq; split; reflexivity.
Qed.



(** [cancel_fund_subscription] goes through when the scan finds a
    subscription and the writes of the ledger and of the balance go
    through. *)
Lemma service_cancel_accepted (e : env) (uid fid : string) (w : world)
    (fund : Fund) (t : Transaction) :
  funds (db w) !! fid = Some fund ->
  query_ok e = true ->
  t ∈ ledger_window (db w) uid 50 ->
  eligible fid (ledger_window (db w) uid 50) t = true ->
  balance_create_ok e = true -> txn_create_ok e = true ->
  balance_save_ok e = true ->
  exists c w',
    FundService.cancel_fund_subscription e uid fid w
    = (Returned (true, cancellation_ok (name fund), Some c), w').
Proof.
  intros Hf Hq Hin Hel Hc Ht Hs.
  set (l := ledger_window (db w) uid 50) in *.
  destruct (FundService.find_last_subscription fid l l) as [x|] eqn:Hfind.
  2:{ pose proof (proj1 (find_last_subscription_None fid l) Hfind t Hin)
        as Hno.
      rewrite Hno in Hel. discriminate. }
  unfold FundService.cancel_fund_subscription, except_DoesNotExist, Fund.get,
    try_except, bind, ret.
  rewrite Hf. simpl. rewrite get_user_transactions_window. simpl.
  rewrite Hq. fold l. rewrite Hfind. unfold_models.
  destruct (user_balances (db w) !! uid) as [b|] eqn:Hu; simpl;
    rewrite ?Hc; simpl; rewrite Ht; simpl; rewrite Hs; simpl;
    destruct (status_save_ok e); simpl; eexists; eexists; reflexivity.
Qed.

(** * The claims *)

(** C1, as amended.  Subscribing is accepted when the available balance
    covers the minimum amount of the fund (a balance equal to the
    minimum included) and is refused as insufficient balance, with the
    balance unchanged, when the balance is below the minimum, even by
    one unit.  An accepted subscription records [float] of the minimum
    as its amount and stores [float] of the balance less the minimum;
    for a minimum that is not negative and a balance below 10^13 (15
    significant digits) these are exactly the minimum and the balance
    less the minimum, so that a balance equal to the minimum becomes 0.
    Stated for [FundService.subscribe_to_fund] and for
    [FundSubscribeView.post] (where no active subscription may be
    registered), with the storage writes of the request going
    through. *)
Theorem subscribe_checks_balance :
  (forall (e : env) (uid fid : string) (w : world) (fund : Fund),
      funds (db w) !! fid = Some fund ->
      is_active fund = true ->
      minimum_amount fund <= balance_of (db w) uid ->
      balance_create_ok e = true -> txn_create_ok e = true ->
      balance_save_ok e = true ->
      exists t w',
        FundService.subscribe_to_fund e uid fid w
          = (Returned (true, subscription_ok (name fund), Some t), w')
        /\ transaction_type t = SUBSCRIPTION
        /\ amount t = float (minimum_amount fund)
        /\ balance_of (db w') uid
           = float (balance_of (db w) uid - minimum_amount fund)
        /\ (0 <= minimum_amount fund ->
            balance_of (db w) uid < float_limit ->
            amount t = minimum_amount fund
            /\ balance_of (db w') uid
               = balance_of (db w) uid - minimum_amount fund))
  /\ (forall (e : env) (uid fid : string) (w : world) (fund : Fund),
         funds (db w) !! fid = Some fund ->
         is_active fund = true ->
         balance_of (db w) uid < minimum_amount fund ->
         balance_create_ok e = true ->
         exists w',
           FundService.subscribe_to_fund e uid fid w
             = (Returned (false, no_available_balance (name fund), None), w')
           /\ balance_of (db w') uid = balance_of (db w) uid
           /\ transactions (db w') = transactions (db w)
           /\ user_funds (db w') = user_funds (db w))
  /\ (forall (e : env) (fid : string) (w : world) (fund : Fund),
         fid <> EmptyString ->
         funds (db w) !! fid = Some fund ->
         is_active fund = true ->
         may_subscribe (db w) default_user_id fid ->
         minimum_amount fund <= balance_of (db w) default_user_id ->
         balance_create_ok e = true -> txn_create_ok e = true ->
         balance_save_ok e = true ->
         (notification_ok e = true -> notified_save_ok e = true) ->
         exists t w',
           FundSubscribeView.post e fid w
             = (Returned
                  (HTTP_201_CREATED t (minimum_amount fund)
                     (balance_of (db w) default_user_id - minimum_amount fund)
                     (notification_ok e)), w')
           /\ transaction_type t = SUBSCRIPTION
           /\ amount t = float (minimum_amount fund)
           /\ balance_of (db w') default_user_id
              = float (balance_of (db w) default_user_id
                       - minimum_amount fund)
           /\ (0 <= minimum_amount fund ->
               balance_of (db w) default_user_id < float_limit ->
               amount t = minimum_amount fund
               /\ balance_of (db w') default_user_id
                  = balance_of (db w) default_user_id - minimum_amount fund))
  /\ (forall (e : env) (fid : string) (w : world) (fund : Fund),
         fid <> EmptyString ->
         funds (db w) !! fid = Some fund ->
         is_active fund = true ->
         may_subscribe (db w) default_user_id fid ->
         balance_of (db w) default_user_id < minimum_amount fund ->
         balance_create_ok e = true ->
         exists w',
           FundSubscribeView.post e fid w
             = (Returned
                  (HTTP_400_BAD_REQUEST
                     (insufficient_balance (minimum_amount fund)
                        (balance_of (db w) default_user_id))), w')
           /\ balance_of (db w') default_user_id
              = balance_of (db w) default_user_id
           /\ transactions (db w') = transactions (db w)
           /\ user_funds (db w') = user_funds (db w)).
Proof.
  split; [|split; [|split]].
  - intros e uid fid w fund Hf Ha Hb Hc Ht Hs.
    destruct (service_subscribe_sufficient e uid fid w fund Hf Ha Hb Hc Ht Hs)
      as (t & w' & Hres & Hty & Ham & Hbal).
    exists t, w'. repeat (split; [assumption|]).
    intros Hmin Hlim. rewrite Ham, Hbal.
    rewrite !float_in_range by lia. auto.
  - apply service_subscribe_insufficient.
  - intros e fid w fund Hne Hf Ha Hm Hb Hc Ht Hs Hn.
    destruct (view_subscribe_sufficient e fid w fund Hne Hf Ha Hm Hb Hc Ht
                Hs Hn) as (t & w' & Hres & Hty & Ham & Hbal).
    exists t, w'. repeat (split; [assumption|]).
    intros Hmin Hlim. rewrite Ham, Hbal.
    rewrite !float_in_range by lia. auto.
  - apply view_subscribe_insufficient.
Qed.

Lemma subscribe_checks_balance_witness :
  (exists t w',
      FundService.subscribe_to_fund all_ok default_user_id "fund-2"
        (sample_world (Some 12500000))
        = (Returned (true, subscription_ok (name ecopetrol), Some t), w')
      /\ amount t = 12500000
      /\ balance_of (db w') default_user_id = 0)
  /\ (exists w',
         FundService.subscribe_to_fund all_ok default_user_id "fund-2"
           (sample_world (Some 12499999))
           = (Returned (false, no_available_balance (name ecopetrol), None),
              w')
         /\ balance_of (db w') default_user_id = 12499999)
  /\ (exists t w',
         FundSubscribeView.post all_ok "fund-2" (sample_world (Some 12500000))
           = (Returned (HTTP_201_CREATED t 12500000 0 true), w')
         /\ balance_of (db w') default_user_id = 0)
  /\ (exists w',
         FundSubscribeView.post all_ok "fund-2" (sample_world (Some 12499999))
           = (Returned
                (HTTP_400_BAD_REQUEST (insufficient_balance 12500000 12499999)),
              w')
         /\ balance_of (db w') default_user_id = 12499999).
Proof.
  destruct subscribe_checks_balance as (Hs & Hi & Hvs & Hvi).
  split; [|split; [|split]].
  - destruct (Hs all_ok default_user_id "fund-2"
                (sample_world (Some 12500000)) ecopetrol)
      as (t & w' & Hr & _ & _ & _ & Hex);
      [reflexivity|reflexivity|vm_compute; discriminate
      |reflexivity|reflexivity|reflexivity|].
    destruct Hex as [Ha Hb]; [vm_compute; discriminate|vm_compute; reflexivity|].
    exists t, w'. split; [exact Hr|]. split; [exact Ha|].
    rewrite Hb. vm_compute. reflexivity.
  - destruct (Hi all_ok default_user_id "fund-2"
                (sample_world (Some 12499999)) ecopetrol)
      as (w' & Hr & Hb & _);
      [reflexivity|reflexivity|vm_compute; reflexivity|reflexivity|].
    exists w'. split; [exact Hr|]. rewrite Hb. vm_compute. reflexivity.
  - destruct (Hvs all_ok "fund-2" (sample_world (Some 12500000)) ecopetrol)
      as (t & w' & Hr & _ & _ & _ & Hex);
      [discriminate|reflexivity|reflexivity|vm_compute; exact I
      |vm_compute; discriminate|reflexivity|reflexivity|reflexivity
      |reflexivity|].
    destruct Hex as [_ Hb]; [vm_compute; discriminate|vm_compute; reflexivity|].
    exists t, w'. split; [exact Hr|]. rewrite Hb. vm_compute. reflexivity.
  - destruct (Hvi all_ok "fund-2" (sample_world (Some 12499999)) ecopetrol)
      as (w' & Hr & Hb & _);
      [discriminate|reflexivity|reflexivity|vm_compute; exact I
      |vm_compute; reflexivity|reflexivity|].
    exists w'. split; [exact Hr|]. rewrite Hb. vm_compute. reflexivity.
Defined.

(** C1, as stated, fails for a balance that a binary64 number does not
    hold with its two decimals: from a balance of 9007199254740994 a
    subscription to a fund whose minimum is 1 is accepted, and the
    balance that is stored is 9007199254740992, not
    9007199254740993. *)
Lemma subscribe_rounds_large_balance :
  let r := FundService.subscribe_to_fund all_ok default_user_id "fund-3"
             large_world in
  let v := FundSubscribeView.post all_ok "fund-3" large_world in
  balance_of (db large_world) default_user_id = 900719925474099400
  /\ float 900719925474099400 = 900719925474099400
  /\ (exists t,
         fst r = Returned (true, subscription_ok (name one_peso_fund), Some t)
         /\ amount t = 100)
  /\ balance_of (db (snd r)) default_user_id = 900719925474099200
  /\ balance_of (db (snd r)) default_user_id
     <> balance_of (db large_world) default_user_id - 100
  /\ (exists t,
         fst v = Returned (HTTP_201_CREATED t 100 900719925474099300 true))
  /\ balance_of (db (snd v)) default_user_id = 900719925474099200
  /\ balance_of (db (snd v)) default_user_id
     <> balance_of (db large_world) default_user_id - 100.
Proof.
  vm_compute.
  repeat split; try discriminate; eexists; try split; reflexivity.
Qed.

(** C2, as amended.  A successful subscribe followed by a successful
    cancel of the same fund, with nothing in between, restores the
    balance when the subscribe has left its trace: for the pair of
    service methods the status write of the subscribe went through (so
    that the scan of the cancel finds that subscription; the ledger has
    its identifiers and timestamps in the past), for the pair of views
    the write of the subscription record went through, and likewise for
    a subscription through the view cancelled through the service.  The
    amounts are not negative and the balance is below 10^13, so that
    every stored number is read back as it was computed.  The cancel
    then credits the amount the subscribe debited. *)
Theorem subscribe_then_cancel_restores_balance :
  (forall (e1 e2 : env) (uid fid : string) (w w1 w2 : world)
          (m1 m2 : message) (t1 t2 : option Transaction),
      well_formed w ->
      nonneg_amounts (db w) ->
      balance_of (db w) uid < float_limit ->
      FundService.subscribe_to_fund e1 uid fid w
        = (Returned (true, m1, t1), w1) ->
      status_save_ok e1 = true ->
      FundService.cancel_fund_subscription e2 uid fid w1
        = (Returned (true, m2, t2), w2) ->
      balance_of (db w2) uid = balance_of (db w) uid)
  /\ (forall (e1 e2 : env) (fid : string) (w w1 w2 : world)
             (t1 t2 : Transaction) (charged refund nb1 nb2 : Decimal)
             (sent1 sent2 : bool),
         nonneg_amounts (db w) ->
         balance_of (db w) default_user_id < float_limit ->
         FundSubscribeView.post e1 fid w
           = (Returned (HTTP_201_CREATED t1 charged nb1 sent1), w1) ->
         user_fund_save_ok e1 = true ->
         FundCancellationView.post e2 fid w1
           = (Returned (HTTP_200_OK t2 refund nb2 sent2), w2) ->
         refund = charged
         /\ balance_of (db w2) default_user_id
            = balance_of (db w) default_user_id)
  /\ (forall (e1 e2 : env) (fid : string) (w w1 w2 : world)
             (t1 : Transaction) (charged nb1 : Decimal) (sent1 : bool)
             (m2 : message) (t2 : option Transaction),
         well_formed w ->
         nonneg_amounts (db w) ->
         balance_of (db w) default_user_id < float_limit ->
         FundSubscribeView.post e1 fid w
           = (Returned (HTTP_201_CREATED t1 charged nb1 sent1), w1) ->
         status_save_ok e1 = true ->
         FundService.cancel_fund_subscription e2 default_user_id fid w1
           = (Returned (true, m2, t2), w2) ->
         balance_of (db w2) default_user_id
         = balance_of (db w) default_user_id).
Proof.
  split; [|split].
  - apply service_subscribe_then_cancel.
  - apply view_subscribe_then_cancel.
  - apply view_subscribe_then_service_cancel.
Qed.

Lemma sample_world_nonneg (balance : Decimal) :
  0 <= balance -> nonneg_amounts (db (sample_world (Some balance))).
Proof.
  intros Hb. repeat split.
  - intros fid fund H. unfold sample_world, sample_store in H.
    cbn [db funds] in H.
    apply lookup_singleton_Some in H as [_ <-]. simpl. lia.
  - intros uid b H. unfold sample_world, sample_store in H.
    cbn [db user_balances] in H.
    apply lookup_singleton_Some in H as [_ <-]. simpl. exact Hb.
  - constructor.
  - intros k r H. unfold sample_world, sample_store in H.
    cbn [db user_funds] in H. rewrite lookup_empty in H. discriminate.
Qed.

Lemma subscribe_then_cancel_restores_balance_witness :
  let w := sample_world (Some 50000000) in
  let w1 := snd (FundService.subscribe_to_fund
                   all_ok default_user_id "fund-2" w) in
  let w2 := snd (FundService.cancel_fund_subscription
                   all_ok default_user_id "fund-2" w1) in
  let v1 := snd (FundSubscribeView.post all_ok "fund-2" w) in
  let v2 := snd (FundCancellationView.post all_ok "fund-2" v1) in
  balance_of (db w1) default_user_id = 37500000
  /\ balance_of (db w2) default_user_id = 50000000
  /\ balance_of (db v1) default_user_id = 37500000
  /\ balance_of (db v2) default_user_id = 50000000.
Proof.
  intros w w1 w2 v1 v2.
  destruct subscribe_then_cancel_restores_balance as (Hs & Hv & _).
  assert (Hnn : nonneg_amounts (db w)) by (apply sample_world_nonneg; lia).
  split; [vm_compute; reflexivity|]. split.
  - rewrite (Hs all_ok all_ok default_user_id "fund-2" w w1 w2
               (subscription_ok (name ecopetrol))
               (cancellation_ok (name ecopetrol))
               (Some (set_status
                        (pending_transaction w default_user_id "fund-2"
                           SUBSCRIPTION 12500000) COMPLETED))
               (Some (set_status
                        (pending_transaction w1 default_user_id "fund-2"
                           CANCELLATION 12500000) COMPLETED))).
    + vm_compute; reflexivity.
    + split; constructor.
    + exact Hnn.
    + vm_compute; reflexivity.
    + vm_compute; reflexivity.
    + reflexivity.
    + vm_compute; reflexivity.
  - split; [vm_compute; reflexivity|].
    destruct (Hv all_ok all_ok "fund-2" w v1 v2
                (set_notification_sent
                   (set_status
                      (pending_transaction w default_user_id "fund-2"
                         SUBSCRIPTION 12500000) COMPLETED) true)
                (set_notification_sent
                   (set_status
                      (pending_transaction v1 default_user_id "fund-2"
                         CANCELLATION 12500000) COMPLETED) true)
                12500000 12500000 37500000 50000000 true true)
      as [_ Hb].
    + exact Hnn.
    + vm_compute; reflexivity.
    + vm_compute; reflexivity.
    + reflexivity.
    + vm_compute; reflexivity.
    + rewrite Hb. vm_compute; reflexivity.
Defined.

(** C2, as stated, fails in three ways.  Through the service, when the
    status write of the subscribe fails the subscribe still answers with
    success and the cancel refunds an older subscription: 200000, then
    75000, then 225000.  Through the views, when the write of the
    subscription record fails after the reactivation, the cancel refunds
    the amount of the previous subscription: 500000, then 375000, then
    475000.  And from a balance of 9007199254740994 the pair leaves
    9007199254740992. *)
Lemma successful_pair_need_not_restore_balance :
  (let r1 := FundService.subscribe_to_fund status_write_fails
               default_user_id "fund-2" sample_ledger_world in
   let r2 := FundService.cancel_fund_subscription all_ok default_user_id
               "fund-2" (snd r1) in
   (exists t,
       fst r1 = Returned (true, subscription_ok (name ecopetrol), Some t))
   /\ (exists t,
          fst r2 = Returned (true, cancellation_ok (name ecopetrol), Some t))
   /\ balance_of (db sample_ledger_world) default_user_id = 20000000
   /\ balance_of (db (snd r1)) default_user_id = 7500000
   /\ balance_of (db (snd r2)) default_user_id = 22500000)
  /\ (let v1 := FundSubscribeView.post record_write_fails "fund-2"
                  sample_inactive_world in
      let v2 := FundCancellationView.post all_ok "fund-2" (snd v1) in
      (exists t,
          fst v1 = Returned (HTTP_201_CREATED t 12500000 37500000 true))
      /\ (exists t, fst v2 = Returned (HTTP_200_OK t 10000000 47500000 true))
      /\ balance_of (db sample_inactive_world) default_user_id = 50000000
      /\ balance_of (db (snd v1)) default_user_id = 37500000
      /\ balance_of (db (snd v2)) default_user_id = 47500000)
  /\ (let r1 := FundService.subscribe_to_fund all_ok default_user_id
                  "fund-3" large_world in
      let r2 := FundService.cancel_fund_subscription all_ok default_user_id
                  "fund-3" (snd r1) in
      (exists t,
          fst r1
          = Returned (true, subscription_ok (name one_peso_fund), Some t))
      /\ (exists t,
             fst r2
             = Returned (true, cancellation_ok (name one_peso_fund), Some t))
      /\ balance_of (db large_world) default_user_id = 900719925474099400
      /\ balance_of (db (snd r2)) default_user_id = 900719925474099200).
Proof.
  vm_compute. repeat split; eexists; reflexivity.
Qed.

(** C3.  From a state whose recorded amounts and fund minimums are not
    negative, and in particular whose balances are not negative (an
    absent balance counts as the default 500000 that is created at the
    first access), no sequence of subscribe and cancel requests, through
    the service or through the views and whatever the storage does,
    makes a balance negative. *)
Theorem balance_never_negative (w : world) (rs : list request)
    (uid : string) :
  nonneg_amounts (db w) ->
  nonneg_amounts (db (run rs w)) /\ 0 <= balance_of (db (run rs w)) uid.
Proof.
  intros Hn. pose proof (run_nonneg rs w Hn) as Hr.
  split; [exact Hr|]. apply nonneg_balance_of, Hr.
Qed.

Lemma balance_never_negative_witness :
  0 <= balance_of
         (db (run [view_subscribe all_ok "fund-2";
                   service_subscribe all_ok default_user_id "fund-2";
                   view_cancel all_ok "fund-2";
                   service_cancel writes_fail default_user_id "fund-2";
                   service_subscribe all_ok default_user_id "fund-2"]
                (sample_world None)))
         default_user_id.
Proof.
  apply (balance_never_negative (sample_world None)).
  repeat split.
  - intros fid fund H. simpl in H.
    apply lookup_singleton_Some in H as [_ <-]. simpl. lia.
  - intros uid b H. simpl in H. rewrite lookup_empty in H. discriminate.
  - constructor.
  - intros k r H. simpl in H. rewrite lookup_empty in H. discriminate.
Defined.

(** C4.  Through [FundService.subscribe_to_fund], a second subscription
    to the same fund with no cancellation in between succeeds as well
    and debits the minimum a second time: with the default balance of
    500000 and a minimum of 125000 the balance is 375000 after the
    first call and 250000 after the second.  Of the two cancellations
    that follow, the first refunds 125000 and the second is refused, so
    one of the two debits is not refundable. *)
Theorem service_subscribes_twice :
  let w := sample_world None in
  let r1 := FundService.subscribe_to_fund all_ok default_user_id "fund-2" w in
  let r2 := FundService.subscribe_to_fund
              all_ok default_user_id "fund-2" (snd r1) in
  let r3 := FundService.cancel_fund_subscription
              all_ok default_user_id "fund-2" (snd r2) in
  let r4 := FundService.cancel_fund_subscription
              all_ok default_user_id "fund-2" (snd r3) in
  (exists t1,
      fst r1 = Returned (true, subscription_ok (name ecopetrol), Some t1))
  /\ (exists t2,
         fst r2 = Returned (true, subscription_ok (name ecopetrol), Some t2))
  /\ balance_of (db (snd r1)) default_user_id = 37500000
  /\ balance_of (db (snd r2)) default_user_id = 25000000
  /\ map status (transactions (db (snd r2))) = [COMPLETED; COMPLETED]
  /\ (exists t3,
         fst r3 = Returned (true, cancellation_ok (name ecopetrol), Some t3))
  /\ fst r4
     = Returned (false, no_active_subscription (name ecopetrol), None)
  /\ balance_of (db (snd r4)) default_user_id = 37500000.
Proof.
  vm_compute. repeat split; eexists; reflexivity.
Qed.

Lemma eligible_open (fid : string) (l : list Transaction) (t : Transaction) :
  eligible fid l t = true <-> open_subscription fid l t.
Proof. rewrite eligible_spec. unfold open_subscription. tauto. Qed.


(** C5, as amended.  When the balance write fails during subscribe
    after the PENDING transaction was saved, the request fails, no
    subscription record is created or altered, the balance is as before
    and the transaction is never COMPLETED: it is stored as FAILED when
    the write of [update_status] goes through, and stays PENDING when
    that write fails as well. *)
Theorem balance_write_failure_marks_failed :
  (forall (e : env) (uid fid : string) (w : world) (fund : Fund),
      fresh_ids w ->
      funds (db w) !! fid = Some fund ->
      is_active fund = true ->
      minimum_amount fund <= balance_of (db w) uid ->
      balance_create_ok e = true -> txn_create_ok e = true ->
      balance_save_ok e = false ->
      exists w',
        FundService.subscribe_to_fund e uid fid w
          = (Returned (false, transaction_error, None), w')
        /\ status_in (db w') (next_uuid w)
           = Some (if status_save_ok e then FAILED else PENDING)
        /\ Forall (fun s => status_in s (next_uuid w) <> Some COMPLETED)
                  (written_during w w')
        /\ user_funds (db w') = user_funds (db w)
        /\ balance_of (db w') uid = balance_of (db w) uid)
  /\ (forall (e : env) (fid : string) (w : world) (fund : Fund),
         fresh_ids w ->
         fid <> EmptyString ->
         funds (db w) !! fid = Some fund ->
         is_active fund = true ->
         may_subscribe (db w) default_user_id fid ->
         minimum_amount fund <= balance_of (db w) default_user_id ->
         balance_create_ok e = true -> txn_create_ok e = true ->
         balance_save_ok e = false ->
         exists w',
           FundSubscribeView.post e fid w
             = (Returned (HTTP_500_INTERNAL_SERVER_ERROR transaction_failed),
                w')
           /\ status_in (db w') (next_uuid w)
              = Some (if status_save_ok e then FAILED else PENDING)
           /\ Forall (fun s => status_in s (next_uuid w) <> Some COMPLETED)
                     (written_during w w')
           /\ user_funds (db w') = user_funds (db w)
           /\ balance_of (db w') default_user_id
              = balance_of (db w) default_user_id).
Proof.
  split.
  - apply service_subscribe_balance_write_fails.
  - apply view_subscribe_balance_write_fails.
Qed.

(** The balance write fails and the status write goes through. *)
Lemma balance_write_failure_marks_failed_witness :
  let e := {| balance_create_ok := true; txn_create_ok := true;
              balance_save_ok := false; status_save_ok := true;
              query_ok := true; reactivate_save_ok := true;
              user_fund_save_ok := true; cancel_save_ok := true;
              notification_ok := true; notified_save_ok := true |} in
  (exists w',
      FundService.subscribe_to_fund e default_user_id "fund-2"
        (sample_world None)
        = (Returned (false, transaction_error, None), w')
      /\ status_in (db w') 1 = Some FAILED
      /\ user_funds (db w') = ∅)
  /\ (exists w',
         FundSubscribeView.post e "fund-2" (sample_world None)
           = (Returned (HTTP_500_INTERNAL_SERVER_ERROR transaction_failed),
              w')
         /\ status_in (db w') 1 = Some FAILED
         /\ user_funds (db w') = ∅).
Proof.
  intros e. destruct balance_write_failure_marks_failed as (Hs & Hv). split.
  - destruct (Hs e default_user_id "fund-2" (sample_world None) ecopetrol)
      as (w' & Hr & Hst & _ & Hu & _);
      [constructor|reflexivity|reflexivity|vm_compute; discriminate
      |reflexivity|reflexivity|reflexivity|].
    exists w'. repeat split; [exact Hr|exact Hst|exact Hu].
  - destruct (Hv e "fund-2" (sample_world None) ecopetrol)
      as (w' & Hr & Hst & _ & Hu & _);
      [constructor|discriminate|reflexivity|reflexivity|vm_compute; exact I
      |vm_compute; discriminate|reflexivity|reflexivity|reflexivity|].
    exists w'. repeat split; [exact Hr|exact Hst|exact Hu].
Defined.

(** C5, as stated, fails when the write of [update_status] fails too:
    the request reports the failure and the stored transaction is still
    PENDING, not FAILED. *)
Lemma failed_status_may_stay_pending :
  let r := FundService.subscribe_to_fund writes_fail default_user_id "fund-2"
             (sample_world None) in
  let v := FundSubscribeView.post writes_fail "fund-2" (sample_world None) in
  fst r = Returned (false, transaction_error, None)
  /\ status_in (db (snd r)) 1 = Some PENDING
  /\ status_in (db (snd r)) 1 <> Some FAILED
  /\ fst v = Returned (HTTP_500_INTERNAL_SERVER_ERROR transaction_failed)
  /\ status_in (db (snd v)) 1 = Some PENDING
  /\ status_in (db (snd v)) 1 <> Some FAILED.
Proof.
  vm_compute. repeat split; discriminate.
Qed.




(** C7, as amended.  A successful cancellation refunds a recorded
    amount, whatever the minimum of the fund is now.
    [FundService.cancel_fund_subscription] refunds the amount of the
    most recent completed subscription to the fund, among the 50 most
    recent transactions of the user, that has no strictly later
    completed cancellation of the fund among them, and it succeeds
    whenever there is one and its writes go through.
    [FundCancellationView.post] refunds the [invested_amount] of the
    active subscription record, and succeeds whenever there is one and
    its writes go through; that amount is the one charged by the
    subscribe request when that request has written the record.  The
    CANCELLATION transaction stores [float] of the refund and the
    balance stored is [float] of the old balance plus the refund: they
    are the refund and the sum themselves when both are below 10^13 in
    absolute value. *)
Theorem cancel_refunds_amount_charged :
  (forall (e : env) (uid fid : string) (w w' : world) (m : message)
          (c : option Transaction),
      FundService.cancel_fund_subscription e uid fid w
        = (Returned (true, m, c), w') ->
      exists t c',
        c = Some c'
        /\ c' = set_status
                  (pending_transaction w uid fid CANCELLATION (amount t))
                  COMPLETED
        /\ t ∈ ledger_window (db w) uid 50
        /\ open_subscription fid (ledger_window (db w) uid 50) t
        /\ (forall t', t' ∈ ledger_window (db w) uid 50 ->
                       open_subscription fid (ledger_window (db w) uid 50) t' ->
                       created_at t' <= created_at t)
        /\ transaction_type c' = CANCELLATION
        /\ amount c' = float (amount t)
        /\ balance_of (db w') uid = float (balance_of (db w) uid + amount t)
        /\ (Z.abs (amount t) < float_limit ->
            Z.abs (balance_of (db w) uid + amount t) < float_limit ->
            amount c' = amount t
            /\ balance_of (db w') uid = balance_of (db w) uid + amount t))
  /\ (forall (e : env) (uid fid : string) (w : world) (fund : Fund)
             (t : Transaction),
         funds (db w) !! fid = Some fund ->
         query_ok e = true ->
         t ∈ ledger_window (db w) uid 50 ->
         open_subscription fid (ledger_window (db w) uid 50) t ->
         balance_create_ok e = true -> txn_create_ok e = true ->
         balance_save_ok e = true ->
         exists c w',
           FundService.cancel_fund_subscription e uid fid w
           = (Returned (true, cancellation_ok (name fund), Some c), w'))
  /\ (forall (e : env) (fid : string) (w w' : world) (t : Transaction)
             (refund new_balance : Decimal) (sent : bool),
         FundCancellationView.post e fid w
           = (Returned (HTTP_200_OK t refund new_balance sent), w') ->
         exists sub,
           user_funds (db w) !! (default_user_id, fid) = Some sub
           /\ active sub = true
           /\ refund = invested_amount sub
           /\ transaction_type t = CANCELLATION
           /\ amount t = float refund
           /\ new_balance = balance_of (db w) default_user_id + refund
           /\ balance_of (db w') default_user_id = float new_balance
           /\ (Z.abs refund < float_limit ->
               Z.abs new_balance < float_limit ->
               amount t = refund
               /\ balance_of (db w') default_user_id = new_balance))
  /\ (forall (e : env) (fid : string) (w : world) (fund : Fund)
             (r : UserFund),
         fid <> EmptyString ->
         funds (db w) !! fid = Some fund ->
         user_funds (db w) !! (default_user_id, fid) = Some r ->
         active r = true ->
         balance_create_ok e = true -> txn_create_ok e = true ->
         balance_save_ok e = true ->
         (notification_ok e = true -> notified_save_ok e = true) ->
         exists t w',
           FundCancellationView.post e fid w
           = (Returned
                (HTTP_200_OK t (invested_amount r)
                   (balance_of (db w) default_user_id + invested_amount r)
                   (notification_ok e)), w'))
  /\ (forall (e1 e2 : env) (fid : string) (w w1 w2 : world)
             (t1 t2 : Transaction) (charged refund nb1 nb2 : Decimal)
             (sent1 sent2 : bool),
         FundSubscribeView.post e1 fid w
           = (Returned (HTTP_201_CREATED t1 charged nb1 sent1), w1) ->
         user_fund_save_ok e1 = true ->
         FundCancellationView.post e2 fid w1
           = (Returned (HTTP_200_OK t2 refund nb2 sent2), w2) ->
         amount t1 = float charged
         /\ refund = float charged
         /\ (Z.abs charged < float_limit ->
             amount t1 = charged /\ refund = charged)).
Proof.
  repeat apply conj.
  - intros e uid fid w w' m c Hres.
    apply service_cancel_refund in Hres
      as (t & c' & Hc & Hc' & Hin & Hel & Hrecent & Hty & Ham & Hbal).
    exists t, c'.
    split; [exact Hc|]. split; [exact Hc'|]. split; [exact Hin|].
    split; [apply eligible_open, Hel|].
    split; [intros t' Hin' Hopen; apply Hrecent;
            [exact Hin'|apply eligible_open, Hopen]|].
    split; [exact Hty|]. split; [exact Ham|]. split; [exact Hbal|].
    intros Ha Hb. rewrite Ham, Hbal.
    unfold float_limit in *. rewrite !float_exact by assumption.
    split; reflexivity.
  - intros e uid fid w fund t Hf Hq Hin Hopen Hc Ht Hs.
    apply service_cancel_accepted with (t := t); auto.
    apply eligible_open, Hopen.
  - intros e fid w w' t refund nb sent Hres.
    apply view_cancel_refund in Hres
      as (sub & Hsub & Hact & Href & Hty & Ham & Hnb & Hbal).
    exists sub. repeat (split; [assumption|]).
    intros Ha Hb. rewrite Ham, Hbal.
    unfold float_limit in *. rewrite !float_exact by assumption.
    split; reflexivity.
  - intros e fid w fund r Hne Hf Hr Hact Hc Ht Hs Hn.
    destruct (view_cancel_accepted e fid w fund r Hne Hf Hr Hact Hc Ht Hs Hn)
      as (t & w' & Hres & _).
    exists t, w'. exact Hres.
  - intros e1 e2 fid w w1 w2 t1 t2 charged refund nb1 nb2 sent1 sent2
      Hsub Hsave Hcan.
    apply view_subscribe_created in Hsub
      as (fund & _ & _ & _ & _ & _ & _ & _ & Ham & _ & _ & _ & _ & Hreg).
    destruct (Hreg Hsave) as (r & Hr & _ & _ & Hinv).
    apply view_cancel_refund in Hcan as (sub & Hsub & _ & Href & _).
    rewrite Hr in Hsub. injection Hsub as <-.
    assert (Hrefund : refund = float charged) by congruence.
    split; [exact Ham|]. split; [exact Hrefund|].
    intros Ha. rewrite Ham, Hrefund.
    unfold float_limit in *. rewrite !float_exact by assumption.
    split; reflexivity.
Qed.

(** The minimum of the fund is 125000; the open subscription was
    charged 150000, and 150000 is refunded by the service and by the
    view.  A subscription through the view charges 125000, and the view
    refunds 125000. *)
Lemma cancel_refunds_amount_charged_witness :
  let r := FundService.cancel_fund_subscription all_ok default_user_id
             "fund-2" sample_ledger_world in
  let v := FundCancellationView.post all_ok "fund-2"
             sample_subscribed_world in
  let p1 := FundSubscribeView.post all_ok "fund-2"
              (sample_world (Some 50000000)) in
  let p2 := FundCancellationView.post all_ok "fund-2" (snd p1) in
  (exists t c',
      fst r = Returned (true, cancellation_ok (name ecopetrol), Some c')
      /\ t ∈ sample_ledger
      /\ amount t = 15000000
      /\ amount c' = 15000000
      /\ balance_of (db (snd r)) default_user_id = 35000000)
  /\ (exists c,
         fst v = Returned (HTTP_200_OK c 15000000 35000000 true)
         /\ amount c = 15000000
         /\ balance_of (db (snd v)) default_user_id = 35000000)
  /\ (exists t1 t2,
         fst p1 = Returned (HTTP_201_CREATED t1 12500000 37500000 true)
         /\ fst p2 = Returned (HTTP_200_OK t2 12500000 50000000 true)
         /\ amount t1 = 12500000).
Proof.
  intros r v p1 p2.
  destruct cancel_refunds_amount_charged as (Hs & Hse & Hv & Hve & Hp).
  split; [|split].
  - destruct (Hse all_ok default_user_id "fund-2" sample_ledger_world
                ecopetrol
                {| transaction_id := 3; user_id := default_user_id;
                   fund_id := "fund-2"; transaction_type := SUBSCRIPTION;
                   amount := 15000000; status := COMPLETED;
                   notification_sent := false; created_at := 9 |})
      as (c & w' & Hres); try reflexivity.
    { vm_compute. left. }
    { apply eligible_open. vm_compute. reflexivity. }
    destruct (Hs all_ok default_user_id "fund-2" sample_ledger_world w'
                (cancellation_ok (name ecopetrol)) (Some c) Hres)
      as (t & c' & Hc & Hc' & Hin & Hopen & _ & _ & _ & _ & Hexact).
    injection Hc as <-.
    apply elem_of_ledger_window in Hin as [Hin _].
    apply eligible_open in Hopen.
    assert (Ht : t ∈ sample_ledger /\ amount t = 15000000).
    { split; [exact Hin|].
      change (t ∈ sample_ledger) in Hin. unfold sample_ledger in Hin.
      rewrite !elem_of_cons in Hin.
      destruct Hin as [->|[->|[->|Hin]]];
        [vm_compute in Hopen; discriminate
        |vm_compute in Hopen; discriminate
        |reflexivity
        |inversion Hin]. }
    destruct Ht as [Ht Hamt].
    destruct Hexact as [Ham Hbal];
      [rewrite Hamt; vm_compute; reflexivity
      |rewrite Hamt; vm_compute; reflexivity|].
    exists t, c. unfold r. rewrite Hres. simpl.
    split; [reflexivity|]. split; [exact Ht|]. split; [exact Hamt|].
    split; [congruence|]. rewrite Hbal, Hamt. vm_compute. reflexivity.
  - destruct (Hve all_ok "fund-2" sample_subscribed_world ecopetrol
                sample_subscription)
      as (c & w' & Hres);
      [discriminate|vm_compute; reflexivity|vm_compute; reflexivity
      |reflexivity|reflexivity|reflexivity|reflexivity
      |intros _; reflexivity|].
    destruct (Hv all_ok "fund-2" sample_subscribed_world w' c _ _ _ Hres)
      as (sub & _ & _ & _ & _ & _ & _ & _ & Hexact).
    destruct Hexact as [Ham Hbal];
      [vm_compute; reflexivity|vm_compute; reflexivity|].
    exists c. unfold v. rewrite Hres. simpl.
    split; [reflexivity|]. split; [exact Ham|]. rewrite Hbal. reflexivity.
  - destruct (Hp all_ok all_ok "fund-2" (sample_world (Some 50000000))
                (snd p1) (snd p2)
                (set_notification_sent
                   (set_status
                      (pending_transaction (sample_world (Some 50000000))
                         default_user_id "fund-2" SUBSCRIPTION 12500000)
                      COMPLETED) true)
                (set_notification_sent
                   (set_status
                      (pending_transaction (snd p1) default_user_id "fund-2"
                         CANCELLATION 12500000) COMPLETED) true)
                12500000 12500000 37500000 50000000 true true)
      as (_ & _ & Hexact);
      [vm_compute; reflexivity|reflexivity|vm_compute; reflexivity|].
    destruct Hexact as [Ham _]; [vm_compute; reflexivity|].
    eexists. eexists. split; [vm_compute; reflexivity|].
    split; [vm_compute; reflexivity|]. vm_compute. reflexivity.
Defined.

(** C7, as stated, fails in two ways.  Through the views, when the write
    of the subscription record fails after the reactivation, the only
    completed subscription of the ledger was charged 125000 and the
    cancel refunds 100000, the amount the record kept from an earlier
    subscription.  And at a balance of 9007199254740992 a refund of 1
    leaves the balance as it was. *)
Lemma refund_may_differ_from_amount_charged :
  (let v1 := FundSubscribeView.post record_write_fails "fund-2"
               sample_inactive_world in
   let v2 := FundCancellationView.post all_ok "fund-2" (snd v1) in
   (exists t, fst v1 = Returned (HTTP_201_CREATED t 12500000 37500000 true))
   /\ map (fun t => (transaction_type t, amount t, status t))
          (transactions (db (snd v1)))
      = [(SUBSCRIPTION, 12500000, COMPLETED)]
   /\ (exists t, fst v2 = Returned (HTTP_200_OK t 10000000 47500000 true))
   /\ map (fun t => (transaction_type t, amount t, status t))
          (transactions (db (snd v2)))
      = [(SUBSCRIPTION, 12500000, COMPLETED);
         (CANCELLATION, 10000000, COMPLETED)]
   /\ balance_of (db (snd v1)) default_user_id = 37500000
   /\ balance_of (db (snd v2)) default_user_id = 47500000)
  /\ (let r1 := FundService.subscribe_to_fund all_ok default_user_id
                  "fund-3" large_world in
      let r2 := FundService.cancel_fund_subscription all_ok default_user_id
                  "fund-3" (snd r1) in
      let v2 := FundCancellationView.post all_ok "fund-3"
                  (snd (FundSubscribeView.post all_ok "fund-3"
                          large_world)) in
      (exists t,
          fst r2
          = Returned (true, cancellation_ok (name one_peso_fund), Some t)
          /\ amount t = 100)
      /\ balance_of (db (snd r1)) default_user_id = 900719925474099200
      /\ balance_of (db (snd r2)) default_user_id = 900719925474099200
      /\ (exists t,
             fst v2 = Returned (HTTP_200_OK t 100 900719925474099300 true))
      /\ balance_of (db (snd v2)) default_user_id = 900719925474099200).
Proof.
  vm_compute. repeat split; eexists; try split; reflexivity.
Qed.

(** C8.  Along every sequence of subscribe and cancel requests (service
    or views, whatever the storage does), starting from a state whose
    transaction identifiers were all drawn before: between two
    successive writes the stored status of a transaction is unchanged,
    or the transaction appears as PENDING, or it goes from PENDING to
    COMPLETED or FAILED; hence a stored status COMPLETED or FAILED is
    the same in every later state. *)
Theorem status_transitions_are_one_way (w : world) (rs : list request) :
  fresh_ids w ->
  lawful_history (history w) ->
  let h := history (run rs w) in
  (forall (i : nat) (older newer : store) (tid : positive),
      h !! S i = Some older -> h !! i = Some newer ->
      status_in older tid = status_in newer tid
      \/ (status_in older tid = None /\ status_in newer tid = Some PENDING)
      \/ (status_in older tid = Some PENDING
          /\ (status_in newer tid = Some COMPLETED
              \/ status_in newer tid = Some FAILED)))
  /\ (forall (i j : nat) (older newer : store) (tid : positive)
             (st : Status),
         (i <= j)%nat -> h !! j = Some older -> h !! i = Some newer ->
         status_in older tid = Some st -> st <> PENDING ->
         status_in newer tid = Some st).
Proof.
  intros Hfresh Hlaw h.
  destruct (run_lawful rs w Hfresh Hlaw) as [_ Hh]. fold h in Hh. split.
  - intros i older newer tid Hj Hi.
    exact (lawful_history_adjacent h i older newer Hh Hj Hi tid).
  - intros i j older newer tid st.
    apply lawful_history_terminal. exact Hh.
Qed.

Lemma status_transitions_are_one_way_witness :
  let h := history
             (run [view_subscribe all_ok "fund-2";
                   view_cancel all_ok "fund-2";
                   service_subscribe writes_fail default_user_id "fund-2"]
                (sample_world None)) in
  (forall (i j : nat) (older newer : store) (tid : positive) (st : Status),
      (i <= j)%nat -> h !! j = Some older -> h !! i = Some newer ->
      status_in older tid = Some st -> st <> PENDING ->
      status_in newer tid = Some st)
  /\ map (fun s => (status_in s 1, status_in s 2, status_in s 3)) h
     = [(Some COMPLETED, Some COMPLETED, Some PENDING);
        (Some COMPLETED, Some COMPLETED, None);
        (Some COMPLETED, Some COMPLETED, None);
        (Some COMPLETED, Some COMPLETED, None);
        (Some COMPLETED, Some PENDING, None);
        (Some COMPLETED, Some PENDING, None);
        (Some COMPLETED, None, None);
        (Some COMPLETED, None, None);
        (Some COMPLETED, None, None);
        (Some PENDING, None, None);
        (Some PENDING, None, None);
        (None, None, None);
        (None, None, None)].
Proof.
  intros h.
  pose proof (status_transitions_are_one_way (sample_world None)
    [view_subscribe all_ok "fund-2"; view_cancel all_ok "fund-2";
     service_subscribe writes_fail default_user_id "fund-2"]) as H.
  destruct H as [_ H]; [constructor|constructor|].
  split; [exact H|]. vm_compute. reflexivity.
Defined.

(** C9, as amended.  The arithmetic of the workflows is on decimals and
    is exact, and every result is written through [float]:
    [UserBalance.update_balance] stores [float] of the new balance and
    [Transaction.create_transaction] records [float] of the amount.
    What is stored is the decimal itself whenever it is below 10^13 in
    absolute value (with its two decimals, 15 significant digits), so
    the balance stored for a debit is the exact difference in that
    range; and a stored number is written back as it is. *)
Theorem stored_amounts_are_exact_below_limit :
  (forall (e : env) (uid : string) (self : UserBalance)
          (new_balance : Decimal) (w : world),
      balance_save_ok e = true ->
      exists w',
        UserBalance.update_balance e uid self new_balance w
        = (Returned (true, {| available_balance := float new_balance |}), w')
        /\ balance_of (db w') uid = float new_balance)
  /\ (forall (uid fid : string) (ty : TransactionType) (amt : Decimal)
             (st : Status) (w : world),
         exists t w',
           Transaction.create_transaction uid fid ty amt st w
           = (Returned t, w')
           /\ amount t = float amt)
  /\ (forall d : Decimal, Z.abs d < float_limit -> float d = d)
  /\ (forall d : Decimal, float (float d) = float d)
  /\ (forall (e : env) (uid : string) (self : UserBalance)
             (balance debit : Decimal) (w : world),
         balance_save_ok e = true ->
         Z.abs (balance - debit) < float_limit ->
         exists w',
           UserBalance.update_balance e uid self (balance - debit) w
           = (Returned (true, {| available_balance := balance - debit |}),
              w')
           /\ balance_of (db w') uid = balance - debit)
  /\ (forall (uid fid : string) (ty : TransactionType) (amt : Decimal)
             (st : Status) (w : world),
         Z.abs amt < float_limit ->
         exists t w',
           Transaction.create_transaction uid fid ty amt st w
           = (Returned t, w')
           /\ amount t = amt).
Proof.
  assert (Hupdate : forall (e : env) (uid : string) (self : UserBalance)
                           (new_balance : Decimal) (w : world),
             balance_save_ok e = true ->
             exists w',
               UserBalance.update_balance e uid self new_balance w
               = (Returned (true,
                            {| available_balance := float new_balance |}), w')
               /\ balance_of (db w') uid = float new_balance).
  { intros e uid self nb w Hs.
    unfold UserBalance.update_balance, try_except, bind, save, ret.
    rewrite Hs. eexists. split; [reflexivity|].
    unfold balance_of, store_put_balance. simpl.
    rewrite lookup_insert_eq. reflexivity. }
  assert (Hcreate : forall (uid fid : string) (ty : TransactionType)
                           (amt : Decimal) (st : Status) (w : world),
             exists t w',
               Transaction.create_transaction uid fid ty amt st w
               = (Returned t, w')
               /\ amount t = float amt).
  { intros uid fid ty amt st w.
    unfold Transaction.create_transaction, bind, uuid4, utcnow, ret.
    eexists. eexists. split; reflexivity. }
  repeat apply conj.
  - exact Hupdate.
  - exact Hcreate.
  - intros d Hd. apply float_exact. exact Hd.
  - apply float_idempotent.
  - intros e uid self balance debit w Hs Hd.
    destruct (Hupdate e uid self (balance - debit) w Hs) as (w' & Hres & Hb).
    rewrite float_exact in Hres, Hb by exact Hd.
    exists w'. split; assumption.
  - intros uid fid ty amt st w Hd.
    destruct (Hcreate uid fid ty amt st w) as (t & w' & Hres & Ha).
    rewrite float_exact in Ha by exact Hd.
    exists t, w'. split; assumption.
Qed.

(** Debiting 125000.50 from 500000.75 stores 375000.25, and a
    transaction of 125000.50 records 125000.50. *)
Lemma stored_amounts_are_exact_below_limit_witness :
  (exists w',
      UserBalance.update_balance all_ok default_user_id
        {| available_balance := 50000075 |} (50000075 - 12500050)
        (sample_world (Some 50000075))
      = (Returned (true, {| available_balance := 37500025 |}), w')
      /\ balance_of (db w') default_user_id = 37500025)
  /\ (exists t w',
         Transaction.create_transaction default_user_id "fund-2"
           SUBSCRIPTION 12500050 PENDING (sample_world (Some 50000075))
         = (Returned t, w')
         /\ amount t = 12500050)
  /\ float 37500025 = 37500025.
Proof.
  destruct stored_amounts_are_exact_below_limit
    as (_ & _ & Hexact & _ & Hdebit & Hamount).
  split; [|split].
  - apply (Hdebit all_ok default_user_id {| available_balance := 50000075 |}
             50000075 12500050 (sample_world (Some 50000075)));
      [reflexivity|vm_compute; reflexivity].
  - apply (Hamount default_user_id "fund-2" SUBSCRIPTION 12500050 PENDING
             (sample_world (Some 50000075))).
    vm_compute. reflexivity.
  - apply (Hexact 37500025). vm_compute. reflexivity.
Defined.

(** C9, as stated, fails: the results pass through binary64 numbers,
    and not every amount in hundredths survives.  Debiting 1 from
    9007199254740994 stores 9007199254740992 where the difference is
    9007199254740993, and a transaction of 90071992547409.93 records
    90071992547409.94; subscribing from that balance to a fund whose
    minimum is 1 leaves 9007199254740992, through the service and
    through the view. *)
Lemma stored_amounts_are_rounded_above_limit :
  900719925474099400 - 100 = 900719925474099300
  /\ fst (UserBalance.update_balance all_ok default_user_id
            {| available_balance := 900719925474099400 |}
            (900719925474099400 - 100) large_world)
     = Returned (true, {| available_balance := 900719925474099200 |})
  /\ balance_of
       (db (snd (UserBalance.update_balance all_ok default_user_id
                   {| available_balance := 900719925474099400 |}
                   (900719925474099400 - 100) large_world)))
       default_user_id
     = 900719925474099200
  /\ (exists t,
         fst (Transaction.create_transaction default_user_id "fund-3"
                SUBSCRIPTION 9007199254740993 PENDING large_world)
         = Returned t
         /\ amount t = 9007199254740994)
  /\ balance_of
       (db (snd (FundService.subscribe_to_fund all_ok default_user_id
                   "fund-3" large_world)))
       default_user_id
     = 900719925474099200
  /\ balance_of
       (db (snd (FundSubscribeView.post all_ok "fund-3" large_world)))
       default_user_id
     = 900719925474099200.
Proof.
  vm_compute. repeat split. eexists. split; reflexivity.
Qed.

(** C10.  When the index query raises, [get_user_transactions] returns
    the empty list, and [cancel_fund_subscription] on an existing fund
    then reports that there is no active subscription and leaves
    everything as it was. *)
Theorem failed_query_reads_as_empty_ledger :
  (forall (e : env) (uid : string) (limit : nat) (w : world),
      query_ok e = false ->
      Transaction.get_user_transactions e uid limit w = (Returned [], w))
  /\ (forall (e : env) (uid fid : string) (w : world) (fund : Fund),
         funds (db w) !! fid = Some fund ->
         query_ok e = false ->
         FundService.cancel_fund_subscription e uid fid w
         = (Returned (false, no_active_subscription (name fund), None), w)).
Proof.
  split.
  - intros e uid limit w Hq.
    rewrite get_user_transactions_window, Hq. reflexivity.
  - intros e uid fid w fund Hf Hq.
    eapply service_cancel_not_found; [exact Hf|reflexivity|].
    rewrite Hq. reflexivity.
Qed.

(** The ledger holds an open subscription, the query fails. *)
Lemma failed_query_reads_as_empty_ledger_witness :
  Transaction.get_user_transactions query_fails default_user_id 50
    sample_ledger_world = (Returned [], sample_ledger_world)
  /\ FundService.cancel_fund_subscription query_fails default_user_id
       "fund-2" sample_ledger_world
     = (Returned (false, no_active_subscription (name ecopetrol), None),
        sample_ledger_world).
Proof.
  destruct failed_query_reads_as_empty_ledger as (Hq & Hc). split.
  - apply (Hq query_fails default_user_id 50%nat sample_ledger_world).
    reflexivity.
  - apply (Hc query_fails default_user_id "fund-2" sample_ledger_world
             ecopetrol); reflexivity.
Defined.
